(** * goply: inventory model, resource staging and the reconcile state machine

    A shallow embedding of [inventory.go], [reconciler.go] and the string set
    they use.  The cluster API (the resource manager), the YAML decoder and the
    defaulting pass are collaborators of the package: they appear here as the
    variables of a section, and every theorem holds for all of them. *)

From stdpp Require Import gmap strings list.
From Stdlib Require Import ZArith Ascii.

Local Open Scope Z_scope.
Local Open Scope string_scope.
Local Open Scope list_scope.

(** ** Kubernetes value types, as far as the package reads and writes them *)

Module schema.
Record GroupKind := { Group : string; Kind : string }.

Record GroupVersionKind := { gvkGroup : string; gvkVersion : string; gvkKind : string }.

Definition GroupKind_of (gvk : GroupVersionKind) : GroupKind :=
  {| Group := gvkGroup gvk; Kind := gvkKind gvk |}.
End schema.

Module unstructured.
(** An object is a generic document; the package only goes through the
    accessors for group/version/kind, name and namespace.  [Fields] stands
    for the rest of the document (spec, data, ...). *)
Record Unstructured := {
  gvk : schema.GroupVersionKind;
  name : string;
  namespace : string;
  Fields : list (string * string)
}.

(** [&unstructured.Unstructured{}] *)
Definition empty : Unstructured :=
  {| gvk := {| schema.gvkGroup := ""; schema.gvkVersion := ""; schema.gvkKind := "" |};
     name := ""; namespace := ""; Fields := [] |}.

Definition GroupVersionKind (u : Unstructured) : schema.GroupVersionKind := gvk u.
Definition GetName (u : Unstructured) : string := name u.
Definition GetNamespace (u : Unstructured) : string := namespace u.

Definition SetGroupVersionKind (g : schema.GroupVersionKind) (u : Unstructured) : Unstructured :=
  {| gvk := g; name := name u; namespace := namespace u; Fields := Fields u |}.
Definition SetName (n : string) (u : Unstructured) : Unstructured :=
  {| gvk := gvk u; name := n; namespace := namespace u; Fields := Fields u |}.
Definition SetNamespace (n : string) (u : Unstructured) : Unstructured :=
  {| gvk := gvk u; name := name u; namespace := n; Fields := Fields u |}.
End unstructured.

Module object.
Record ObjMetadata := {
  Namespace : string;
  Name : string;
  GroupKind : schema.GroupKind
}.

(** Modelled from the spec: [object.UnstructuredToObjMetadata] belongs to
    cli-utils and is not part of the sources; the identity of a resource is
    its (group, kind, namespace, name). *)
Definition UnstructuredToObjMetadata (obj : unstructured.Unstructured) : ObjMetadata :=
  {| Namespace := unstructured.GetNamespace obj;
     Name := unstructured.GetName obj;
     GroupKind := schema.GroupKind_of (unstructured.GroupVersionKind obj) |}.
End object.

Abbreviation Unstructured := unstructured.Unstructured.

(** ** The string set ([newSet], [Add], [Remove], [Contains]) *)

(** [set[T]] wraps a [map[T]struct{}]; the package instantiates it at
    [string] only. *)
Record set := { data : gset string }.

Definition Add (items : list string) (s : set) : set :=
  foldl (fun acc i => {| data := {[ i ]} ∪ data acc |}) s items.

Definition Remove (items : list string) (s : set) : set :=
  foldl (fun acc i => {| data := data acc ∖ {[ i ]} |}) s items.

Definition Contains (s : set) (item : string) : bool :=
  bool_decide (item ∈ data s).

Definition newSet (items : list string) : set :=
  Add items {| data := ∅ |}.

(** ** Inventory ([inventory.go]) *)

Record InventoryItem := {
  ObjMetadata : object.ObjMetadata;
  GroupVersion : string
}.

Record Inventory := { Items : list InventoryItem }.

(** [Inventory{}] *)
Definition Inventory_zero : Inventory := {| Items := [] |}.

Definition toInventoryItem (obj : Unstructured) : InventoryItem :=
  {| ObjMetadata := object.UnstructuredToObjMetadata obj;
     GroupVersion := schema.gvkVersion (unstructured.GroupVersionKind obj) |}.

(** The object built in the body of the loop of [ItemsToRemove]: a fresh
    document carrying group, kind, version, name and namespace only. *)
Definition removalRef (i : InventoryItem) : Unstructured :=
  let obj := unstructured.empty in
  let obj := unstructured.SetGroupVersionKind
               {| schema.gvkGroup := schema.Group (object.GroupKind (ObjMetadata i));
                  schema.gvkKind := schema.Kind (object.GroupKind (ObjMetadata i));
                  schema.gvkVersion := GroupVersion i |} obj in
  let obj := unstructured.SetName (object.Name (ObjMetadata i)) obj in
  let obj := unstructured.SetNamespace (object.Namespace (ObjMetadata i)) obj in
  obj.

Section Identity.
(** [ObjMetadata.String] of cli-utils renders the four identity fields as
    one string; the package relies on nothing else about it. *)
Variable ObjMetadata_String : object.ObjMetadata -> string.

Definition ID (i : InventoryItem) : string :=
  ObjMetadata_String (ObjMetadata i).

Definition ItemsToRemove (i newInv : Inventory) : list Unstructured :=
  let newSet := newSet (map ID (Items newInv)) in
  foldl (fun toRemove i =>
           if negb (Contains newSet (ID i))
           then toRemove ++ [removalRef i]
           else toRemove)
        [] (Items i).
End Identity.

(** ** Errors, durations and options ([reconciler.go]) *)

(** A Go [error] value: a plain message, or a message wrapping another error
    ([fmt.Errorf] with the wrapping verb). *)
Inductive error :=
| errors_New (msg : string)
| fmt_Errorf (msg : string) (wrapped : error).

(** [time.Duration] counts nanoseconds. *)
Definition Second : Z := 1000000000.
Definition Minute : Z := 60 * Second.

Definition DefaultTimeout : Z := 5 * Minute.

Record ApplyOpts := {
  WaitTimeout : option Z;
  SkipWait : bool
}.

Record DeleteOpts := {
  DeleteWaitTimeout : option Z;
  DeleteSkipWait : bool
}.

(** ** The resource manager, as the package calls it *)

Module metav1.
Inductive DeletionPropagation :=
| DeletePropagationOrphan
| DeletePropagationBackground
| DeletePropagationForeground.
End metav1.

Module ssa.
(** [ssa.ApplyOptions{}]: the package only ever passes the zero value. *)
Inductive ApplyOptions := ApplyOptions_zero.

Record WaitOptions := { Interval : Z; Timeout : Z }.

Record DeleteOptions := { PropagationPolicy : metav1.DeletionPropagation }.

(** The four operations of [*ssa.ResourceManager] the package uses.  Each
    acts on the cluster (the world) and reports an error or nil; the change
    set [ApplyAll] and [DeleteAll] also return is dropped by every caller. *)
Record ResourceManager (World : Type) := {
  ApplyAll : list Unstructured -> ApplyOptions -> World -> option error * World;
  Wait : list Unstructured -> WaitOptions -> World -> option error * World;
  DeleteAll : list Unstructured -> DeleteOptions -> World -> option error * World;
  WaitForTermination : list Unstructured -> WaitOptions -> World -> option error * World
}.
Arguments ApplyAll {World}.
Arguments Wait {World}.
Arguments DeleteAll {World}.
Arguments WaitForTermination {World}.
End ssa.

(** One request to the resource manager, with its arguments. *)
Inductive Call :=
| ApplyAllCall (objects : list Unstructured) (opts : ssa.ApplyOptions)
| WaitCall (objects : list Unstructured) (opts : ssa.WaitOptions)
| DeleteAllCall (objects : list Unstructured) (opts : ssa.DeleteOptions)
| WaitForTerminationCall (objects : list Unstructured) (opts : ssa.WaitOptions).

Definition isWait (c : Call) : bool :=
  match c with WaitCall _ _ => true | _ => false end.
Definition isWaitForTermination (c : Call) : bool :=
  match c with WaitForTerminationCall _ _ => true | _ => false end.
Definition isDeleteAll (c : Call) : bool :=
  match c with DeleteAllCall _ _ => true | _ => false end.
Definition isApplyAll (c : Call) : bool :=
  match c with ApplyAllCall _ _ => true | _ => false end.

(** ** Decoding and staging *)

Section Staging.
(** [ssautils.ReadObjects] on the text, [normalize.UnstructuredList] (which
    defaults the objects in place: the result is the list afterwards) and
    [ssautils.IsClusterDefinition]. *)
Variable ReadObjects : string -> list Unstructured * option error.
Variable normalize_UnstructuredList : list Unstructured -> list Unstructured * option error.
Variable IsClusterDefinition : Unstructured -> bool.

Definition GetObjects (yaml : string) : list Unstructured * option error :=
  let '(allObjects, err) := ReadObjects yaml in
  match err with
  | Some e => ([], Some (fmt_Errorf "error decoding yaml to unstructured" e))
  | None => (allObjects, None)
  end.

(** The loop of [getResourceStages]: each object is appended to one of the
    two slices. *)
Definition stageLoop (stageOne stageTwo allObjects : list Unstructured)
  : list Unstructured * list Unstructured :=
  foldl (fun stages obj =>
           if IsClusterDefinition obj
           then (stages.1 ++ [obj], stages.2)
           else (stages.1, stages.2 ++ [obj]))
        (stageOne, stageTwo) allObjects.

Definition getResourceStages (yaml : string)
  : list Unstructured * list Unstructured * option error :=
  let stageOne : list Unstructured := [] in
  let stageTwo : list Unstructured := [] in
  let '(allObjects, err) := GetObjects yaml in
  match err with
  | Some e => (stageOne, stageTwo, Some (fmt_Errorf "error decoding yaml to unstructured" e))
  | None =>
      let '(allObjects, err) := normalize_UnstructuredList allObjects in
      match err with
      | Some e => (stageOne, stageTwo, Some (fmt_Errorf "error setting defaults" e))
      | None =>
          let '(stageOne, stageTwo) := stageLoop stageOne stageTwo allObjects in
          (stageOne, stageTwo, None)
      end
  end.
End Staging.

(** ** The reconciler *)

Section Reconciler.
Variable World : Type.

(** What a run threads along: the cluster, and the requests sent to the
    resource manager so far (oldest first). *)
Record State := { world : World; calls : list Call }.

Definition M (A : Type) : Type := State -> A * State.

#[local] Instance M_ret : MRet M := fun A a st => (a, st).
#[local] Instance M_bind : MBind M :=
  fun A B f m st => let '(a, st') := m st in f a st'.

(** Send one request: the manager acts on the world, the request is noted. *)
Definition request (c : Call) (op : World -> option error * World) : M (option error) :=
  fun st =>
    let '(err, w) := op (world st) in
    (err, {| world := w; calls := calls st ++ [c] |}).

Record Reconciler := {
  mgr : ssa.ResourceManager World;
  logFunc : option (string -> World -> World)
}.

Definition SetLogFunc (r : Reconciler) (f : option (string -> World -> World)) : Reconciler :=
  {| mgr := mgr r; logFunc := f |}.

Definition log (r : Reconciler) (msg : string) : M unit :=
  match logFunc r with
  | None => mret tt
  | Some f => fun st => (tt, {| world := f msg (world st); calls := calls st |})
  end.

Definition mgr_ApplyAll (r : Reconciler) (objects : list Unstructured) (opts : ssa.ApplyOptions)
  : M (option error) :=
  request (ApplyAllCall objects opts) (ssa.ApplyAll (mgr r) objects opts).
Definition mgr_Wait (r : Reconciler) (objects : list Unstructured) (opts : ssa.WaitOptions)
  : M (option error) :=
  request (WaitCall objects opts) (ssa.Wait (mgr r) objects opts).
Definition mgr_DeleteAll (r : Reconciler) (objects : list Unstructured) (opts : ssa.DeleteOptions)
  : M (option error) :=
  request (DeleteAllCall objects opts) (ssa.DeleteAll (mgr r) objects opts).
Definition mgr_WaitForTermination (r : Reconciler) (objects : list Unstructured)
    (opts : ssa.WaitOptions) : M (option error) :=
  request (WaitForTerminationCall objects opts) (ssa.WaitForTermination (mgr r) objects opts).

Variable ObjMetadata_String : object.ObjMetadata -> string.
Variable ReadObjects : string -> list Unstructured * option error.
Variable normalize_UnstructuredList : list Unstructured -> list Unstructured * option error.
Variable IsClusterDefinition : Unstructured -> bool.

(** [if opts.WaitTimeout == nil { opts.WaitTimeout = ptr(DefaultTimeout) }] *)
Definition orDefault (t : option Z) : option Z :=
  match t with
  | None => Some DefaultTimeout
  | Some d => Some d
  end.

(** [*opts.WaitTimeout].  Every dereference in the package comes after
    [orDefault], so the nil case (a panic in Go) is never reached. *)
Definition deref (t : option Z) : Z := default 0 t.

Definition delete (r : Reconciler) (items : list Unstructured) (opts : DeleteOpts)
  : M (option error) :=
  let opts := {| DeleteWaitTimeout := orDefault (DeleteWaitTimeout opts);
                 DeleteSkipWait := DeleteSkipWait opts |} in
  log r "beginning delete of resources" ;;
  err ← mgr_DeleteAll r items
          {| ssa.PropagationPolicy := metav1.DeletePropagationForeground |} ;
  match err with
  | Some e => mret (Some (fmt_Errorf "error during deletion" e))
  | None =>
      (if negb (DeleteSkipWait opts)
       then
         log r "waiting for resources to terminate" ;;
         err ← mgr_WaitForTermination r items
                 {| ssa.Interval := 2 * Second;
                    ssa.Timeout := deref (DeleteWaitTimeout opts) |} ;
         mret tt
       else mret tt) ;;
      mret None
  end.

Definition Delete (r : Reconciler) (yaml : string) (opts : DeleteOpts) : M (option error) :=
  let '(allObjects, err) := GetObjects ReadObjects yaml in
  match err with
  | Some e => mret (Some (fmt_Errorf "error decoding yaml to unstructured" e))
  | None => delete r allObjects opts
  end.

Definition removeItems (r : Reconciler) (previousInventory newInventory : Inventory)
    (opts : ApplyOpts) : M (option error) :=
  let toRemove := ItemsToRemove ObjMetadata_String previousInventory newInventory in
  if (length toRemove =? 0)%nat
  then mret None
  else
    log r "pruning resources" ;;
    delete r toRemove {| DeleteWaitTimeout := WaitTimeout opts;
                         DeleteSkipWait := SkipWait opts |}.

Definition Reconcile (r : Reconciler) (yaml : string) (opts : ApplyOpts)
    (previousInventory : option Inventory) : M (Inventory * option error) :=
  let opts := {| WaitTimeout := orDefault (WaitTimeout opts); SkipWait := SkipWait opts |} in
  let '(stageOne, stageTwo, err) :=
    getResourceStages ReadObjects normalize_UnstructuredList IsClusterDefinition yaml in
  match err with
  | Some e => mret (Inventory_zero, Some (fmt_Errorf "error getting resource stages" e))
  | None =>
      let inventory := Inventory_zero in
      let inventory := {| Items := Items inventory ++ map toInventoryItem stageOne |} in
      let inventory := {| Items := Items inventory ++ map toInventoryItem stageTwo |} in
      log r "beginning apply of stage one resources" ;;
      err ← mgr_ApplyAll r stageOne ssa.ApplyOptions_zero ;
      match err with
      | Some e => mret (Inventory_zero, Some (fmt_Errorf "error applying stage one resources" e))
      | None =>
          log r "waiting for stage one resources to reconcile" ;;
          err ← mgr_Wait r stageOne
                  {| ssa.Interval := 2 * Second; ssa.Timeout := 30 * Second |} ;
          match err with
          | Some _ =>
              mret (Inventory_zero, Some (errors_New "timed out waiting for objects to reconcile"))
          | None =>
              log r "beginning apply of stage two resources" ;;
              err ← mgr_ApplyAll r stageTwo ssa.ApplyOptions_zero ;
              match err with
              | Some e =>
                  mret (Inventory_zero,
                        Some (fmt_Errorf "error applying stage two resources" e))
              | None =>
                  err ← (if negb (SkipWait opts)
                         then
                           log r "waiting for stage two resources to reconcile" ;;
                           mgr_Wait r stageTwo
                             {| ssa.Interval := 2 * Second;
                                ssa.Timeout := deref (WaitTimeout opts) |}
                         else mret None) ;
                  match err with
                  | Some _ =>
                      mret (Inventory_zero,
                            Some (errors_New "timed out waiting for objects to reconcile"))
                  | None =>
                      err ← match previousInventory with
                            | Some prev => removeItems r prev inventory opts
                            | None => mret None
                            end ;
                      match err with
                      | Some e => mret (Inventory_zero, Some (fmt_Errorf "error pruning items" e))
                      | None => mret (inventory, None)
                      end
                  end
              end
          end
      end
  end.

Definition Apply (r : Reconciler) (yaml : string) (opts : ApplyOpts)
  : M (Inventory * option error) :=
  Reconcile r yaml opts None.

(** *** The request sequence of a run that goes through *)

Definition stageOneWait : ssa.WaitOptions :=
  {| ssa.Interval := 2 * Second; ssa.Timeout := 30 * Second |}.

Definition foreground : ssa.DeleteOptions :=
  {| ssa.PropagationPolicy := metav1.DeletePropagationForeground |}.

(** The requests [delete] sends for [items] when no request fails. *)
Definition deleteCalls (items : list Unstructured) (skipWait : bool) (timeout : Z)
  : list Call :=
  DeleteAllCall items foreground
  :: (if skipWait then []
      else [WaitForTerminationCall items
              {| ssa.Interval := 2 * Second; ssa.Timeout := timeout |}]).

Definition pruneCalls (previousInventory : option Inventory) (inventory : Inventory)
    (skipWait : bool) (timeout : Z) : list Call :=
  match previousInventory with
  | None => []
  | Some prev =>
      match ItemsToRemove ObjMetadata_String prev inventory with
      | [] => []
      | toRemove => deleteCalls toRemove skipWait timeout
      end
  end.

(** The requests [Reconcile] sends, in order, when no request fails. *)
Definition plannedCalls (stageOne stageTwo : list Unstructured) (opts : ApplyOpts)
    (previousInventory : option Inventory) : list Call :=
  let timeout := default DefaultTimeout (WaitTimeout opts) in
  let inventory := {| Items := map toInventoryItem stageOne ++ map toInventoryItem stageTwo |} in
  [ApplyAllCall stageOne ssa.ApplyOptions_zero;
   WaitCall stageOne stageOneWait;
   ApplyAllCall stageTwo ssa.ApplyOptions_zero]
  ++ (if SkipWait opts then []
      else [WaitCall stageTwo {| ssa.Interval := 2 * Second; ssa.Timeout := timeout |}])
  ++ pruneCalls previousInventory inventory (SkipWait opts) timeout.

(** *** The first apply, as the specification words it

    The state machine of the specification restricted to a call without a
    previous inventory: Idle, StagedApplyOne, AwaitOneConverged,
    StagedApplyTwo, AwaitTwoConverged (unless skip-wait), Done; Failed from
    any state.  There is no pruning phase. *)

Record Staged := {
  one : list Unstructured;
  two : list Unstructured;
  intent : Inventory
}.

Inductive Phase :=
| Idle
| StagedApplyOne (d : Staged)
| AwaitOneConverged (d : Staged)
| StagedApplyTwo (d : Staged)
| AwaitTwoConverged (d : Staged)
| Done (inv : Inventory)
| Failed (e : error).

Definition spec_decode (yaml : string) : error + list Unstructured :=
  match ReadObjects yaml with
  | (_, Some e) =>
      inl (fmt_Errorf "error decoding yaml to unstructured"
             (fmt_Errorf "error decoding yaml to unstructured" e))
  | (objs, None) =>
      match normalize_UnstructuredList objs with
      | (_, Some e) => inl (fmt_Errorf "error setting defaults" e)
      | (objs, None) => inr objs
      end
  end.

Definition spec_step (r : Reconciler) (yaml : string) (opts : ApplyOpts) (ph : Phase)
  : M Phase :=
  match ph with
  | Idle =>
      match spec_decode yaml with
      | inl e => mret (Failed (fmt_Errorf "error getting resource stages" e))
      | inr objs =>
          let stageOne := List.filter IsClusterDefinition objs in
          let stageTwo := List.filter (fun o => negb (IsClusterDefinition o)) objs in
          mret (StagedApplyOne
                  {| one := stageOne; two := stageTwo;
                     intent := {| Items := map toInventoryItem (stageOne ++ stageTwo) |} |})
      end
  | StagedApplyOne d =>
      log r "beginning apply of stage one resources" ;;
      err ← mgr_ApplyAll r (one d) ssa.ApplyOptions_zero ;
      mret (match err with
            | Some e => Failed (fmt_Errorf "error applying stage one resources" e)
            | None => AwaitOneConverged d
            end)
  | AwaitOneConverged d =>
      log r "waiting for stage one resources to reconcile" ;;
      err ← mgr_Wait r (one d) stageOneWait ;
      mret (match err with
            | Some _ => Failed (errors_New "timed out waiting for objects to reconcile")
            | None => StagedApplyTwo d
            end)
  | StagedApplyTwo d =>
      log r "beginning apply of stage two resources" ;;
      err ← mgr_ApplyAll r (two d) ssa.ApplyOptions_zero ;
      mret (match err with
            | Some e => Failed (fmt_Errorf "error applying stage two resources" e)
            | None => if SkipWait opts then Done (intent d) else AwaitTwoConverged d
            end)
  | AwaitTwoConverged d =>
      log r "waiting for stage two resources to reconcile" ;;
      err ← mgr_Wait r (two d)
              {| ssa.Interval := 2 * Second;
                 ssa.Timeout := default DefaultTimeout (WaitTimeout opts) |} ;
      mret (match err with
            | Some _ => Failed (errors_New "timed out waiting for objects to reconcile")
            | None => Done (intent d)
            end)
  | Done inv => mret (Done inv)
  | Failed e => mret (Failed e)
  end.

Fixpoint spec_run (fuel : nat) (r : Reconciler) (yaml : string) (opts : ApplyOpts)
    (ph : Phase) : M Phase :=
  match fuel with
  | O => mret ph
  | S fuel' => ph' ← spec_step r yaml opts ph ; spec_run fuel' r yaml opts ph'
  end.

(** What the caller sees of a terminal state; a run still under way when
    the fuel is spent has produced nothing. *)
Definition outcome (ph : Phase) : option (Inventory * option error) :=
  match ph with
  | Done inv => Some (inv, None)
  | Failed e => Some (Inventory_zero, Some e)
  | _ => None
  end.

Definition firstApply_spec (r : Reconciler) (yaml : string) (opts : ApplyOpts)
  : M (option (Inventory * option error)) :=
  ph ← spec_run 5 r yaml opts Idle ; mret (outcome ph).
End Reconciler.

Arguments world {World}.
Arguments calls {World}.
Arguments mgr {World}.
Arguments logFunc {World}.
Arguments SetLogFunc {World}.
Arguments delete {World}.
Arguments Delete {World}.
Arguments removeItems {World}.
Arguments Reconcile {World}.
Arguments Apply {World}.
Arguments firstApply_spec {World}.
Arguments log {World}.
Arguments spec_run {World}.
Arguments spec_step {World}.

(** ** A small fixture: concrete collaborators for examples *)

Module Sample.
(** Namespace, name, group and kind joined by underscores. *)
Definition idString (m : object.ObjMetadata) : string :=
  object.Namespace m ++ "_" ++ object.Name m ++ "_"
  ++ schema.Group (object.GroupKind m) ++ "_" ++ schema.Kind (object.GroupKind m).

Definition mkObject (group version kind namespace name : string) (fields : list (string * string))
  : Unstructured :=
  {| unstructured.gvk := {| schema.gvkGroup := group; schema.gvkVersion := version;
                            schema.gvkKind := kind |};
     unstructured.name := name;
     unstructured.namespace := namespace;
     unstructured.Fields := fields |}.

Definition nsObject : Unstructured :=
  mkObject "" "v1" "Namespace" "" "goply-test" [].
Definition configOne : Unstructured :=
  mkObject "" "v1" "ConfigMap" "goply-test" "config-one" [("foo", "foo1")].
Definition configTwo : Unstructured :=
  mkObject "" "v1" "ConfigMap" "goply-test" "config-two" [("bar", "bar1")].

(** A toy declaration text: one character per document, [N] the namespace,
    [1] and [2] the two config maps; any other character does not decode. *)
Fixpoint ReadObjects (yaml : string) : list Unstructured * option error :=
  match yaml with
  | EmptyString => ([], None)
  | String c rest =>
      let doc :=
        if Ascii.eqb c "N"%char then Some nsObject
        else if Ascii.eqb c "1"%char then Some configOne
        else if Ascii.eqb c "2"%char then Some configTwo
        else None in
      match doc, ReadObjects rest with
      | Some o, (objs, None) => (o :: objs, None)
      | Some _, (_, Some e) => ([], Some e)
      | None, _ => ([], Some (errors_New "unknown document"))
      end
  end.

Definition normalize (objs : list Unstructured) : list Unstructured * option error :=
  (objs, None).

Definition IsClusterDefinition (o : Unstructured) : bool :=
  let kind := schema.gvkKind (unstructured.GroupVersionKind o) in
  String.eqb kind "Namespace" || String.eqb kind "CustomResourceDefinition".

(** A manager over a trivial world: a request fails exactly when [fails]
    says so. *)
Definition answer (fails : Call -> bool) (c : Call) (w : unit) : option error * unit :=
  (if fails c then Some (errors_New "injected failure") else None, w).

Definition manager (fails : Call -> bool) : ssa.ResourceManager unit :=
  {| ssa.ApplyAll := fun objs o => answer fails (ApplyAllCall objs o);
     ssa.Wait := fun objs o => answer fails (WaitCall objs o);
     ssa.DeleteAll := fun objs o => answer fails (DeleteAllCall objs o);
     ssa.WaitForTermination := fun objs o => answer fails (WaitForTerminationCall objs o) |}.

Definition reconciler (fails : Call -> bool) : Reconciler unit :=
  {| mgr := manager fails; logFunc := None |}.

Definition healthy : Reconciler unit := reconciler (fun _ => false).

Definition start : State unit := {| world := tt; calls := [] |}.

Definition reconcile (r : Reconciler unit) (yaml : string) (opts : ApplyOpts)
    (prev : option Inventory) : (Inventory * option error) * State unit :=
  Reconcile idString ReadObjects normalize IsClusterDefinition r yaml opts prev start.

Definition noOpts : ApplyOpts := {| WaitTimeout := None; SkipWait := false |}.

Definition inventoryOf (objs : list Unstructured) : Inventory :=
  {| Items := map toInventoryItem objs |}.

Definition twoMaps : Inventory := inventoryOf [configOne; configTwo].
Definition oneMap : Inventory := inventoryOf [configTwo].

Definition skipOpts : ApplyOpts := {| WaitTimeout := None; SkipWait := true |}.

(** A cluster on which deleted resources never finish terminating. *)
Definition stuck : Reconciler unit := reconciler isWaitForTermination.

Definition timedOpts : ApplyOpts := {| WaitTimeout := Some (90 * Second); SkipWait := false |}.

(** A log function that only looks. *)
Definition quietLog : string -> unit -> unit := fun _ w => w.

(** [configOne] as a later API version would report it. *)
Definition configOne_v2 : Unstructured :=
  mkObject "" "v2" "ConfigMap" "goply-test" "config-one" [("foo", "foo1")].
End Sample.

(** * Properties *)

(** Unfolding the model by name, for the sections below where the same names
    stand for the model applied to the collaborators at hand. *)
Ltac unfold_ItemsToRemove := unfold ItemsToRemove.
Ltac unfold_staging := unfold getResourceStages, spec_decode, GetObjects.
Ltac unfold_Reconcile := unfold Reconcile.
Ltac unfold_removeItems := unfold removeItems.
Ltac unfold_Delete := unfold Delete.
Ltac unfold_plan := unfold plannedCalls, pruneCalls, deleteCalls, stageOneWait, foreground.
Ltac unfold_plan_in H := unfold plannedCalls, pruneCalls, deleteCalls, stageOneWait in H.

(** ** The string set *)

Lemma data_Add (items : list string) (s : set) :
  data (Add items s) = list_to_set items ∪ data s.
Proof.
  revert s. induction items as [|i items IH]; intros s.
  - cbn. set_solver.
  - unfold Add in *. cbn [foldl]. rewrite IH. cbn. set_solver.
Qed.

Lemma Contains_newSet (items : list string) (x : string) :
  Contains (newSet items) x = bool_decide (x ∈ items).
Proof.
  unfold Contains, newSet. rewrite data_Add. cbn.
  apply bool_decide_ext. set_solver.
Qed.

(** ** Two facts about list filters *)

Lemma filter_none {A} (P : A -> Prop) `{forall x, Decision (P x)} (l : list A) :
  (forall x, x ∈ l -> ~ P x) -> filter P l = [].
Proof.
  induction l as [|x l IH]; intros Hl; [done|].
  rewrite filter_cons_False by (apply Hl; left).
  apply IH. intros y Hy. apply Hl. by right.
Qed.


(** ** Inventory difference *)


Section InventoryFacts.
Variable ObjMetadata_String : object.ObjMetadata -> string.

Local Abbreviation ID := (ID ObjMetadata_String).
Local Abbreviation ItemsToRemove := (ItemsToRemove ObjMetadata_String).

(** An item of the old inventory is kept for removal when no item of the
    new one has its identity string. *)
Local Abbreviation orphan newInv := (fun i : InventoryItem => ID i ∉ map ID (Items newInv)).

Lemma ItemsToRemove_loop (newInv : Inventory) (items : list InventoryItem)
    (acc : list Unstructured) :
  foldl (fun toRemove i =>
           if negb (Contains (newSet (map ID (Items newInv))) (ID i))
           then toRemove ++ [removalRef i]
           else toRemove) acc items
  = acc ++ map removalRef (filter (orphan newInv) items).
Proof.
  revert acc. induction items as [|i items IH]; intros acc; cbn [foldl].
  - cbn. by rewrite app_nil_r.
  - rewrite IH, Contains_newSet, filter_cons.
    destruct (decide (ID i ∉ map ID (Items newInv))) as [Hout|Hin].
    + rewrite bool_decide_eq_false_2 by done. cbn. by rewrite <- app_assoc.
    + rewrite bool_decide_eq_true_2; [done|]. by apply dec_stable.
Qed.

Lemma ItemsToRemove_filter (A B : Inventory) :
  ItemsToRemove A B = map removalRef (filter (orphan B) (Items A)).
Proof. unfold_ItemsToRemove. by rewrite ItemsToRemove_loop. Qed.

Lemma ItemsToRemove_nil_iff (A B : Inventory) :
  ItemsToRemove A B = [] <-> forall a, a ∈ Items A -> ID a ∈ map ID (Items B).
Proof.
  rewrite ItemsToRemove_filter. split.
  - intros H a Ha. apply dec_stable. intros Hout.
    assert (Hin : a ∈ filter (orphan B) (Items A)) by (apply list_elem_of_filter; done).
    apply (list_elem_of_fmap_2 removalRef) in Hin.
    change (removalRef <$> filter (orphan B) (Items A))
      with (map removalRef (filter (orphan B) (Items A))) in Hin.
    rewrite H in Hin. by apply not_elem_of_nil in Hin.
  - intros H. rewrite filter_none; [done|]. intros a Ha Hout. apply Hout, H, Ha.
Qed.

End InventoryFacts.

(** The inventory difference of the package's own test: two config maps
    against the second one alone leaves the first. *)
Example ItemsToRemove_test :
  map unstructured.GetName (ItemsToRemove Sample.idString Sample.twoMaps Sample.oneMap)
  = ["config-one"].
Proof. vm_compute. reflexivity. Qed.


Section VersionFacts.
Variable ObjMetadata_String : object.ObjMetadata -> string.

Local Abbreviation ID := (ID ObjMetadata_String).
Local Abbreviation ItemsToRemove := (ItemsToRemove ObjMetadata_String).

End VersionFacts.


(** ** Staging *)

Section StagingFacts.
Variable ReadObjects : string -> list Unstructured * option error.
Variable normalize_UnstructuredList : list Unstructured -> list Unstructured * option error.
Variable IsClusterDefinition : Unstructured -> bool.

Local Abbreviation notDefinition := (fun o => negb (IsClusterDefinition o)).
Local Abbreviation getResourceStages :=
  (getResourceStages ReadObjects normalize_UnstructuredList IsClusterDefinition).
Local Abbreviation spec_decode := (spec_decode ReadObjects normalize_UnstructuredList).

Lemma stageLoop_filter (stageOne stageTwo allObjects : list Unstructured) :
  stageLoop IsClusterDefinition stageOne stageTwo allObjects
  = (stageOne ++ List.filter IsClusterDefinition allObjects,
     stageTwo ++ List.filter notDefinition allObjects).
Proof.
  revert stageOne stageTwo.
  induction allObjects as [|obj objs IH]; intros stageOne stageTwo.
  - cbn. by rewrite !app_nil_r.
  - unfold stageLoop in *. cbn [foldl List.filter].
    destruct (IsClusterDefinition obj); cbn [negb fst snd]; rewrite IH;
      by rewrite <- app_assoc.
Qed.

(** Either decoding (or defaulting) fails and both stages are empty, or the
    stages are the two filters of the decoded list. *)
Lemma getResourceStages_cases (yaml : string) :
  (exists e, spec_decode yaml = inl e /\ getResourceStages yaml = ([], [], Some e))
  \/ (exists objs, spec_decode yaml = inr objs
        /\ getResourceStages yaml
           = (List.filter IsClusterDefinition objs, List.filter notDefinition objs, None)).
Proof.
  unfold_staging.
  destruct (ReadObjects yaml) as [raw [e|]].
  - left. eauto.
  - destruct (normalize_UnstructuredList raw) as [objs [e|]].
    + left. eauto.
    + right. exists objs. split; [done|]. by rewrite stageLoop_filter.
Qed.

Lemma filter_sublist (p : Unstructured -> bool) (l : list Unstructured) :
  List.filter p l `sublist_of` l.
Proof.
  induction l as [|x l IH]; cbn; [constructor|].
  destruct (p x); by constructor.
Qed.

Lemma filter_split_Permutation {A} (p : A -> bool) (l : list A) :
  List.filter p l ++ List.filter (fun x => negb (p x)) l ≡ₚ l.
Proof.
  induction l as [|x l IH]; cbn; [done|].
  destruct (p x); cbn.
  - by constructor.
  - rewrite <- Permutation_middle. by constructor.
Qed.
End StagingFacts.

(** ** Runs of the reconciler *)

Section ReconcilerFacts.
Context {World : Type}.
Variable ObjMetadata_String : object.ObjMetadata -> string.
Variable ReadObjects : string -> list Unstructured * option error.
Variable normalize_UnstructuredList : list Unstructured -> list Unstructured * option error.
Variable IsClusterDefinition : Unstructured -> bool.

Local Abbreviation notDefinition := (fun o => negb (IsClusterDefinition o)).
Local Abbreviation getResourceStages :=
  (getResourceStages ReadObjects normalize_UnstructuredList IsClusterDefinition).
Local Abbreviation spec_decode := (spec_decode ReadObjects normalize_UnstructuredList).
Local Abbreviation ItemsToRemove := (ItemsToRemove ObjMetadata_String).
Local Abbreviation removeItems := (@removeItems World ObjMetadata_String).
Local Abbreviation Reconcile :=
  (@Reconcile World ObjMetadata_String ReadObjects normalize_UnstructuredList
     IsClusterDefinition).
Local Abbreviation Apply :=
  (@Apply World ObjMetadata_String ReadObjects normalize_UnstructuredList
     IsClusterDefinition).
Local Abbreviation Delete := (@Delete World ReadObjects).
Local Abbreviation plannedCalls := (plannedCalls ObjMetadata_String).
Local Abbreviation pruneCalls := (pruneCalls ObjMetadata_String).

Implicit Types (r : Reconciler World) (st : State World).

(** Logging touches the world at most; the requests noted so far stay. *)
Lemma log_calls r msg st : calls (log r msg st).2 = calls st.
Proof. unfold log. by destruct (logFunc r). Qed.

Ltac run_step :=
  let e := fresh "e" in
  let w := fresh "w" in
  let E := fresh "Hcall" in
  match goal with
  | |- context [ssa.ApplyAll ?m ?o ?a ?x] =>
      destruct (ssa.ApplyAll m o a x) as [[e|] w] eqn:E
  | |- context [ssa.Wait ?m ?o ?a ?x] =>
      destruct (ssa.Wait m o a x) as [[e|] w] eqn:E
  | |- context [ssa.DeleteAll ?m ?o ?a ?x] =>
      destruct (ssa.DeleteAll m o a x) as [[e|] w] eqn:E
  | |- context [ssa.WaitForTermination ?m ?o ?a ?x] =>
      destruct (ssa.WaitForTermination m o a x) as [[e|] w] eqn:E
  end; cbn.

Ltac run_unfold :=
  unfold log, mgr_ApplyAll, mgr_Wait, mgr_DeleteAll, mgr_WaitForTermination, request,
    mbind, M_bind, mret, M_ret; cbn.

(** [delete] either stops at a failed [DeleteAll], or goes through; a failed
    termination wait does not change what it returns. *)
Lemma delete_outcomes r items opts st :
  let timeout := default DefaultTimeout (DeleteWaitTimeout opts) in
  (exists e w, delete r items opts st
               = (Some (fmt_Errorf "error during deletion" e),
                  {| world := w; calls := calls st ++ [DeleteAllCall items foreground] |}))
  \/ (exists w, delete r items opts st
                = (None, {| world := w;
                            calls := calls st
                                     ++ deleteCalls items (DeleteSkipWait opts) timeout |})).
Proof.
  unfold delete, deleteCalls, foreground. run_unfold.
  destruct opts as [[t|] [|]], (logFunc r) as [f|]; cbn;
    repeat run_step; rewrite <- ?app_assoc; cbn; eauto.
Qed.

Lemma Reconcile_decode_error r yaml opts prev st e :
  (getResourceStages yaml).2 = Some e ->
  Reconcile r yaml opts prev st
  = ((Inventory_zero, Some (fmt_Errorf "error getting resource stages" e)), st).
Proof.
  intros He. unfold_Reconcile.
  destruct (getResourceStages yaml) as [[s1 s2] err]. cbn in He. by subst err.
Qed.

Ltac pick_outcome :=
  first [ solve [repeat split; eauto]
        | solve [do 2 eexists; split; [reflexivity|];
                 match goal with
                 | H : _ = _ :: _ |- _ => rewrite H; repeat split; done
                 end]
        | solve [left; pick_outcome]
        | right; pick_outcome ].

(** Every run of [Reconcile] on a text that decodes: the requests it sends
    and what it returns, case by case. *)
Lemma Reconcile_outcomes r yaml opts prev st s1 s2 :
  getResourceStages yaml = (s1, s2, None) ->
  let inventory := {| Items := map toInventoryItem s1 ++ map toInventoryItem s2 |} in
  let timeout := default DefaultTimeout (WaitTimeout opts) in
  let A1 := ApplyAllCall s1 ssa.ApplyOptions_zero in
  let W1 := WaitCall s1 stageOneWait in
  let A2 := ApplyAllCall s2 ssa.ApplyOptions_zero in
  let W2 := WaitCall s2 {| ssa.Interval := 2 * Second; ssa.Timeout := timeout |} in
  let timedOut := errors_New "timed out waiting for objects to reconcile" in
  exists tr res w,
    Reconcile r yaml opts prev st = (res, {| world := w; calls := calls st ++ tr |})
    /\ ((tr = [A1]
         /\ exists e, res = (Inventory_zero,
                             Some (fmt_Errorf "error applying stage one resources" e)))
        \/ (tr = [A1; W1] /\ res = (Inventory_zero, Some timedOut))
        \/ (tr = [A1; W1; A2]
            /\ exists e, res = (Inventory_zero,
                                Some (fmt_Errorf "error applying stage two resources" e)))
        \/ (SkipWait opts = false /\ tr = [A1; W1; A2; W2]
            /\ res = (Inventory_zero, Some timedOut))
        \/ (exists p e,
              prev = Some p /\ ItemsToRemove p inventory <> []
              /\ tr = [A1; W1; A2] ++ (if SkipWait opts then [] else [W2])
                      ++ [DeleteAllCall (ItemsToRemove p inventory) foreground]
              /\ res = (Inventory_zero,
                        Some (fmt_Errorf "error pruning items"
                                (fmt_Errorf "error during deletion" e))))
        \/ (tr = plannedCalls s1 s2 opts prev /\ res = (inventory, None))).
Proof.
  intros Hstages. cbn zeta.
  unfold_Reconcile. rewrite Hstages.
  unfold_removeItems. unfold delete. unfold_plan.
  run_unfold.
  destruct opts as [[t|] [|]], (logFunc r) as [f|], prev as [p|]; cbn;
    try (destruct (ItemsToRemove p _) as [|x toRemove] eqn:HtoRemove; cbn);
    repeat run_step; rewrite <- ?app_assoc; cbn;
    (do 3 eexists; split; [reflexivity|]); pick_outcome.
Qed.

Lemma delete_calls r items opts st :
  exists tr,
    calls (delete r items opts st).2 = calls st ++ tr
    /\ tr `prefix_of`
         deleteCalls items (DeleteSkipWait opts)
           (default DefaultTimeout (DeleteWaitTimeout opts)).
Proof.
  destruct (delete_outcomes r items opts st) as [(e & w & ->) | (w & ->)]; cbn.
  - eexists. split; [done|]. unfold deleteCalls. by eexists.
  - eexists. split; [done|]. done.
Qed.

(** Without a caller timeout the termination wait of [Delete] polls every
    2 seconds up to the default. *)
Lemma Delete_default_timeout r yaml opts st :
  DeleteWaitTimeout opts = None ->
  exists tr,
    calls (Delete r yaml opts st).2 = calls st ++ tr
    /\ forall objs o, WaitForTerminationCall objs o ∈ tr ->
         o = {| ssa.Interval := 2 * Second; ssa.Timeout := DefaultTimeout |}.
Proof.
  intros Hnone. unfold_Delete.
  destruct (GetObjects ReadObjects yaml) as [objs [e|]]; cbn.
  - exists []. rewrite app_nil_r. split; [done|]. intros ?? H. by apply elem_of_nil in H.
  - destruct (delete_calls r objs opts st) as (tr & Hcalls & Hpre).
    exists tr. split; [done|]. intros objs' o Hin.
    eapply elem_of_prefix in Hin; [|exact Hpre].
    unfold deleteCalls in Hin. rewrite Hnone in Hin. cbn in Hin.
    destruct (DeleteSkipWait opts); set_unfold; intuition (simplify_eq; done).
Qed.

(** C8: the named default is five minutes.  When the caller gives no wait
    timeout, the stage-two wait of [Reconcile] and the termination wait of
    pruning and of [Delete] poll every 2 seconds up to that default.  The
    stage-one wait (the second request of a run) polls every 2 seconds up to
    30 seconds whatever the options say. *)
Theorem wait_timeouts r yaml opts prev st :
  DefaultTimeout = 5 * Minute
  /\ Minute = 60 * Second
  /\ (exists tr,
       calls (Reconcile r yaml opts prev st).2 = calls st ++ tr
       /\ (forall c, tr !! 1%nat = Some c ->
             exists objs, c = WaitCall objs
                                {| ssa.Interval := 2 * Second; ssa.Timeout := 30 * Second |})
       /\ (WaitTimeout opts = None ->
           (forall i objs o, tr !! i = Some (WaitCall objs o) -> i <> 1%nat ->
               o = {| ssa.Interval := 2 * Second; ssa.Timeout := DefaultTimeout |})
           /\ (forall objs o, WaitForTerminationCall objs o ∈ tr ->
                 o = {| ssa.Interval := 2 * Second; ssa.Timeout := DefaultTimeout |})))
  /\ (forall dopts, DeleteWaitTimeout dopts = None ->
        exists tr,
          calls (Delete r yaml dopts st).2 = calls st ++ tr
          /\ forall objs o, WaitForTerminationCall objs o ∈ tr ->
               o = {| ssa.Interval := 2 * Second; ssa.Timeout := DefaultTimeout |}).
Proof.
  split; [reflexivity|]. split; [reflexivity|].
  split; [|intros dopts Hnone; by apply Delete_default_timeout].
  destruct (getResourceStages yaml) as [[s1 s2] [e|]] eqn:Hstages.
  - rewrite (Reconcile_decode_error _ _ _ _ _ e) by (by rewrite Hstages).
    exists []. cbn. rewrite app_nil_r. split; [done|]. split; [done|].
    intros _. split; [done|]. intros objs o H. by apply elem_of_nil in H.
  - destruct (Reconcile_outcomes r yaml opts prev st s1 s2 Hstages)
      as (tr & res & w & Hrun & Hcases).
    rewrite Hrun. cbn. exists tr. split; [done|].
    unfold_plan_in Hcases.
    destruct Hcases as
      [(-> & e & ->) | [(-> & ->) | [(-> & e & ->) | [(Hskip & -> & ->)
       | [(p & e & -> & Hne & -> & ->) | (-> & ->)]]]]]; cbn.
    all: split; [intros c Hc; simplify_eq/=; eauto|].
    all: intros Hnone; rewrite ?Hnone; cbn.
    all: destruct (SkipWait opts); cbn.
    all: try (destruct prev as [p|]; [destruct (ItemsToRemove p _)|]; cbn).
    all: split;
      [ intros i objs o Hi Hne';
        repeat (destruct i as [|i]; simplify_eq/=; try done)
      | intros objs o Hin; set_unfold; intuition (simplify_eq; done) ].
Qed.


(** The apply requests of a run, in the order they were sent. *)
Lemma Reconcile_apply_requests r yaml opts prev st s1 s2 :
  getResourceStages yaml = (s1, s2, None) ->
  let run := Reconcile r yaml opts prev st in
  exists tr,
    calls run.2 = calls st ++ tr
    /\ List.filter isApplyAll tr
         `prefix_of` [ApplyAllCall s1 ssa.ApplyOptions_zero;
                      ApplyAllCall s2 ssa.ApplyOptions_zero]
    /\ (run.1.2 = None ->
        List.filter isApplyAll tr
        = [ApplyAllCall s1 ssa.ApplyOptions_zero; ApplyAllCall s2 ssa.ApplyOptions_zero]).
Proof.
  intros Hstages run. subst run.
  destruct (Reconcile_outcomes r yaml opts prev st s1 s2 Hstages)
    as (tr & res & w & Hrun & Hcases).
  rewrite Hrun. cbn. exists tr. split; [done|].
  unfold_plan_in Hcases.
  destruct Hcases as
    [(-> & e & ->) | [(-> & ->) | [(-> & e & ->) | [(Hskip & -> & ->)
     | [(p & e & -> & Hne & -> & ->) | (-> & ->)]]]]]; cbn.
  1-4: split; [|done].
  1-2: by eexists [_].
  1-2: done.
  - destruct (SkipWait opts); cbn; split; done.
  - destruct (SkipWait opts); cbn;
      (destruct prev as [p|]; [destruct (ItemsToRemove p _)|]); cbn; split; done.
Qed.

(** C5: the classifier splits the decoded list in two: stage one holds the
    objects [IsClusterDefinition] accepts, stage two the others, each in the
    order of the input.  [Reconcile] applies stage one in a first request and
    stage two in a later one, whatever the order of the text. *)
Theorem stages_partition_in_order (objs : list Unstructured) :
  let stages := stageLoop IsClusterDefinition [] [] objs in
  stages = (List.filter IsClusterDefinition objs, List.filter notDefinition objs)
  /\ stages.1 `sublist_of` objs
  /\ stages.2 `sublist_of` objs
  /\ stages.1 ++ stages.2 ≡ₚ objs
  /\ (forall o, o ∈ objs -> (o ∈ stages.1 <-> IsClusterDefinition o = true)
                           /\ (o ∈ stages.2 <-> IsClusterDefinition o = false))
  /\ (forall r yaml opts prev st,
        spec_decode yaml = inr objs ->
        let run := Reconcile r yaml opts prev st in
        exists tr,
          calls run.2 = calls st ++ tr
          /\ List.filter isApplyAll tr
               `prefix_of` [ApplyAllCall stages.1 ssa.ApplyOptions_zero;
                            ApplyAllCall stages.2 ssa.ApplyOptions_zero]
          /\ (run.1.2 = None ->
              List.filter isApplyAll tr
              = [ApplyAllCall stages.1 ssa.ApplyOptions_zero;
                 ApplyAllCall stages.2 ssa.ApplyOptions_zero])).
Proof.
  intros stages. subst stages. rewrite stageLoop_filter. cbn [app fst snd].
  split; [done|]. split; [apply filter_sublist|]. split; [apply filter_sublist|].
  split; [apply filter_split_Permutation|]. split.
  - intros o Ho. rewrite !list_elem_of_In, !List.filter_In, <- !list_elem_of_In.
    rewrite negb_true_iff. tauto.
  - intros r yaml opts prev st Hdec.
    apply Reconcile_apply_requests.
    destruct (getResourceStages_cases ReadObjects normalize_UnstructuredList
                IsClusterDefinition yaml) as [(e & He & _) | (objs' & Hobjs & Hst)];
      congruence.
Qed.

(** What a run returns when it succeeds: the inventory of both stages. *)
Lemma Reconcile_success r yaml opts prev st s1 s2 :
  getResourceStages yaml = (s1, s2, None) ->
  (Reconcile r yaml opts prev st).1.2 = None ->
  (Reconcile r yaml opts prev st).1.1
  = {| Items := map toInventoryItem s1 ++ map toInventoryItem s2 |}.
Proof.
  intros Hstages.
  destruct (Reconcile_outcomes r yaml opts prev st s1 s2 Hstages)
    as (tr & res & w & Hrun & Hcases).
  rewrite Hrun. cbn.
  destruct Hcases as
    [(_ & e & ->) | [(_ & ->) | [(_ & e & ->) | [(_ & _ & ->)
     | [(p & e & _ & _ & _ & ->) | (_ & ->)]]]]]; cbn; done.
Qed.

(** C6, as the code has it: the inventory a successful [Reconcile] returns
    holds one item per declared object, the stage-one objects first and then
    the stage-two objects, each group in declaration order.  Nothing removes
    duplicates: its items have pairwise distinct (group, kind, namespace,
    name) when the declared objects do. *)
Theorem inventory_follows_declaration r yaml opts prev st objs :
  spec_decode yaml = inr objs ->
  (Reconcile r yaml opts prev st).1.2 = None ->
  let inv := (Reconcile r yaml opts prev st).1.1 in
  Items inv = map toInventoryItem (List.filter IsClusterDefinition objs)
              ++ map toInventoryItem (List.filter notDefinition objs)
  /\ map ObjMetadata (Items inv) ≡ₚ map object.UnstructuredToObjMetadata objs
  /\ (NoDup (map object.UnstructuredToObjMetadata objs) ->
      NoDup (map ObjMetadata (Items inv))).
Proof.
  intros Hdec Hok inv. subst inv.
  destruct (getResourceStages_cases ReadObjects normalize_UnstructuredList
              IsClusterDefinition yaml) as [(e & He & _) | (objs' & Hobjs & Hst)];
    [congruence|].
  assert (objs' = objs) by congruence. subst objs'.
  rewrite (Reconcile_success _ _ _ _ _ _ _ Hst Hok). cbn [Items].
  split; [done|].
  assert (Hperm : map ObjMetadata
                    (map toInventoryItem (List.filter IsClusterDefinition objs)
                     ++ map toInventoryItem (List.filter notDefinition objs))
                  ≡ₚ map object.UnstructuredToObjMetadata objs).
  { rewrite <- map_app, map_map. cbn.
    change (map (fun o => object.UnstructuredToObjMetadata o)
              (List.filter IsClusterDefinition objs ++ List.filter notDefinition objs)
            ≡ₚ map object.UnstructuredToObjMetadata objs).
    apply Permutation_map, filter_split_Permutation. }
  split; [exact Hperm|].
  intros Hnodup. by rewrite Hperm.
Qed.

(** Nothing to remove: [removeItems] returns nil at once. *)
Lemma removeItems_nothing r prev inv opts st :
  ItemsToRemove prev inv = [] -> removeItems r prev inv opts st = (None, st).
Proof. intros H. unfold_removeItems. by rewrite H. Qed.

(** A previous inventory that leaves nothing to remove changes nothing. *)
Lemma Reconcile_prune_nothing r yaml opts prev st :
  (forall s1 s2, getResourceStages yaml = (s1, s2, None) ->
     ItemsToRemove prev {| Items := map toInventoryItem s1 ++ map toInventoryItem s2 |}
     = []) ->
  Reconcile r yaml opts (Some prev) st = Reconcile r yaml opts None st.
Proof.
  intros Hnothing. unfold_Reconcile.
  destruct (getResourceStages yaml) as [[s1 s2] [e|]] eqn:Hstages; [done|].
  specialize (Hnothing s1 s2 eq_refl). cbn.
  unfold_removeItems. cbn. by rewrite Hnothing.
Qed.

Lemma Reconcile_nil_no_delete r yaml opts st :
  exists tr,
    calls (Reconcile r yaml opts None st).2 = calls st ++ tr
    /\ forall c, c ∈ tr -> isDeleteAll c = false /\ isWaitForTermination c = false.
Proof.
  destruct (getResourceStages yaml) as [[s1 s2] [e|]] eqn:Hstages.
  - rewrite (Reconcile_decode_error _ _ _ _ _ e) by (by rewrite Hstages).
    exists []. cbn. rewrite app_nil_r. split; [done|]. intros c Hc.
    by apply elem_of_nil in Hc.
  - destruct (Reconcile_outcomes r yaml opts None st s1 s2 Hstages)
      as (tr & res & w & Hrun & Hcases).
    rewrite Hrun. cbn. exists tr. split; [done|].
    unfold_plan_in Hcases.
    destruct Hcases as
      [(-> & e & ->) | [(-> & ->) | [(-> & e & ->) | [(Hskip & -> & ->)
       | [(p & e & ? & Hne & -> & ->) | (-> & ->)]]]]]; [..|done|].
    all: try destruct (SkipWait opts); cbn.
    all: intros c Hc; set_unfold; intuition (subst; done).
Qed.

(** C7: without a previous inventory [Reconcile] sends no delete request.
    With one that leaves nothing to remove, the prune step returns nil
    without a request, and the whole run is the run without a previous
    inventory.  So it is when the declaration only grows: after a run on
    [yaml0] returned [inv0], a run on a text declaring every identity of
    [yaml0] again sends no delete request and returns, on success, the
    inventory of the new text. *)
Theorem prune_only_when_needed r yaml opts st :
  (exists tr,
     calls (Reconcile r yaml opts None st).2 = calls st ++ tr
     /\ forall c, c ∈ tr -> isDeleteAll c = false /\ isWaitForTermination c = false)
  /\ (forall (prev inv : Inventory) (st' : State World), ItemsToRemove prev inv = [] ->
        removeItems r prev inv opts st' = (None, st'))
  /\ (forall prev,
        (forall s1 s2, getResourceStages yaml = (s1, s2, None) ->
           ItemsToRemove prev
             {| Items := map toInventoryItem s1 ++ map toInventoryItem s2 |} = []) ->
        Reconcile r yaml opts (Some prev) st = Reconcile r yaml opts None st)
  /\ (forall (yaml0 : string) (opts0 : ApplyOpts) (prev0 : option Inventory)
             (st0 : State World) (inv0 : Inventory) (objs0 objs : list Unstructured),
        spec_decode yaml0 = inr objs0 ->
        spec_decode yaml = inr objs ->
        (Reconcile r yaml0 opts0 prev0 st0).1 = (inv0, None) ->
        (forall o, o ∈ objs0 ->
           ID ObjMetadata_String (toInventoryItem o)
           ∈ map (fun o' => ID ObjMetadata_String (toInventoryItem o')) objs) ->
        Reconcile r yaml opts (Some inv0) st = Reconcile r yaml opts None st
        /\ ((Reconcile r yaml opts (Some inv0) st).1.2 = None ->
            Items (Reconcile r yaml opts (Some inv0) st).1.1
            = map toInventoryItem (List.filter IsClusterDefinition objs)
              ++ map toInventoryItem (List.filter notDefinition objs))).
Proof.
  split; [apply Reconcile_nil_no_delete|].
  split; [intros; by apply removeItems_nothing|].
  split; [intros prev; apply Reconcile_prune_nothing|].
  intros yaml0 opts0 prev0 st0 inv0 objs0 objs Hdec0 Hdec Hrun0 Hgrow.
  destruct (getResourceStages_cases ReadObjects normalize_UnstructuredList
              IsClusterDefinition yaml0) as [(e & He & _) | (o0 & Ho0 & Hst0)];
    [congruence|].
  assert (o0 = objs0) by congruence. subst o0.
  destruct (getResourceStages_cases ReadObjects normalize_UnstructuredList
              IsClusterDefinition yaml) as [(e & He & _) | (o1 & Ho1 & Hst)];
    [congruence|].
  assert (o1 = objs) by congruence. subst o1.
  assert (Hinv0 : Items inv0
                  = map toInventoryItem (List.filter IsClusterDefinition objs0)
                    ++ map toInventoryItem (List.filter notDefinition objs0)).
  { pose proof (Reconcile_success r yaml0 opts0 prev0 st0 _ _ Hst0) as Hs.
    rewrite Hrun0 in Hs. cbn in Hs. by rewrite Hs. }
  assert (Heq : Reconcile r yaml opts (Some inv0) st = Reconcile r yaml opts None st).
  { apply Reconcile_prune_nothing. intros s1 s2 Hs. rewrite Hst in Hs.
    injection Hs as <- <-.
    apply ItemsToRemove_nil_iff. cbn [Items]. intros a Ha.
    rewrite Hinv0, <- map_app in Ha.
    apply (proj1 (list_elem_of_fmap toInventoryItem _ _)) in Ha as (o & -> & Ho).
    rewrite (filter_split_Permutation IsClusterDefinition objs0) in Ho.
    specialize (Hgrow o Ho).
    rewrite <- map_app, map_map.
    rewrite (filter_split_Permutation IsClusterDefinition objs). exact Hgrow. }
  split; [exact Heq|].
  intros Hok. by rewrite (Reconcile_success _ _ _ _ _ _ _ Hst Hok).
Qed.

(** C9: when the text does not decode (or defaulting fails), both stage
    lists are empty and [Reconcile] returns the empty inventory with the
    wrapped error, having sent nothing and left the world as it was.  And
    whenever [Reconcile] returns an error, the inventory it returns is the
    empty one: a non-empty inventory comes with a nil error only. *)
Theorem failure_returns_empty_inventory r yaml opts prev st :
  (forall e, (ReadObjects yaml).2 = Some e ->
     exists e', getResourceStages yaml = ([], [], Some e')
                /\ Reconcile r yaml opts prev st
                   = ((Inventory_zero,
                       Some (fmt_Errorf "error getting resource stages" e')), st))
  /\ (forall e, (getResourceStages yaml).2 = Some e ->
        getResourceStages yaml = ([], [], Some e)
        /\ Reconcile r yaml opts prev st
           = ((Inventory_zero, Some (fmt_Errorf "error getting resource stages" e)), st))
  /\ ((Reconcile r yaml opts prev st).1.2 <> None ->
      (Reconcile r yaml opts prev st).1.1 = Inventory_zero)
  /\ (Items (Reconcile r yaml opts prev st).1.1 <> [] ->
      (Reconcile r yaml opts prev st).1.2 = None).
Proof.
  assert (Hstage : forall e, (getResourceStages yaml).2 = Some e ->
                     getResourceStages yaml = ([], [], Some e)).
  { intros e He.
    destruct (getResourceStages_cases ReadObjects normalize_UnstructuredList
                IsClusterDefinition yaml) as [(e' & _ & Hst) | (objs & _ & Hst)];
      rewrite Hst in He |- *; cbn in He; congruence. }
  assert (Herr : (Reconcile r yaml opts prev st).1.2 <> None ->
                 (Reconcile r yaml opts prev st).1.1 = Inventory_zero).
  { destruct (getResourceStages yaml) as [[s1 s2] [e|]] eqn:Hstages.
    - by rewrite (Reconcile_decode_error _ _ _ _ _ e) by (by rewrite Hstages).
    - destruct (Reconcile_outcomes r yaml opts prev st s1 s2 Hstages)
        as (tr & res & w & Hrun & Hcases).
      rewrite Hrun. cbn.
      destruct Hcases as
        [(_ & e & ->) | [(_ & ->) | [(_ & e & ->) | [(_ & _ & ->)
         | [(p & e & _ & _ & _ & ->) | (_ & ->)]]]]]; cbn; done. }
  split; [|split; [|split]].
  - intros e He.
    assert (exists e', (getResourceStages yaml).2 = Some e') as [e' He'].
    { unfold_staging.
      destruct (ReadObjects yaml) as [raw err]. cbn in He. subst err. cbn. eauto. }
    exists e'. split; [by apply Hstage|]. by apply Reconcile_decode_error.
  - intros e He. split; [by apply Hstage|]. by apply Reconcile_decode_error.
  - exact Herr.
  - intros Hne. destruct ((Reconcile r yaml opts prev st).1.2) eqn:Hres; [|done].
    rewrite Herr in Hne by congruence. done.
Qed.

(** The first apply of the specification, run from [Idle], reaches a
    terminal state within five steps and shows the caller what [Reconcile]
    without a previous inventory does. *)
Lemma firstApply_spec_Reconcile r yaml opts st :
  firstApply_spec ReadObjects normalize_UnstructuredList IsClusterDefinition r yaml opts st
  = (Some (Reconcile r yaml opts None st).1, (Reconcile r yaml opts None st).2).
Proof.
  unfold firstApply_spec. unfold_Reconcile.
  destruct (getResourceStages_cases ReadObjects normalize_UnstructuredList
              IsClusterDefinition yaml) as [(e & Hdec & ->) | (objs & Hdec & ->)].
  - cbn. unfold mbind, M_bind, mret, M_ret. cbn.
    fold spec_decode. rewrite Hdec. cbn. done.
  - cbn [spec_run spec_step]. fold spec_decode.
    unfold stageOneWait. run_unfold. rewrite Hdec.
    destruct opts as [[t|] [|]], (logFunc r) as [f|] eqn:Hlog;
      repeat first [ rewrite Hlog
                   | match goal with
                     | H : ?call = (_, _) |- context [?call] => rewrite H
                     end
                   | progress (cbn; unfold stageOneWait; run_unfold)
                   | run_step ];
      rewrite ?map_app; done.
Qed.

(** C10: [Apply] is [Reconcile] without a previous inventory, result and
    final state alike.  Such a run has no pruning phase (no delete request,
    no termination wait), and it is the first apply of the specification's
    state machine. *)
Theorem Apply_is_Reconcile_nil r yaml opts st :
  Apply r yaml opts st = Reconcile r yaml opts None st
  /\ (exists tr,
        calls (Apply r yaml opts st).2 = calls st ++ tr
        /\ forall c, c ∈ tr -> isDeleteAll c = false /\ isWaitForTermination c = false)
  /\ firstApply_spec ReadObjects normalize_UnstructuredList IsClusterDefinition r yaml opts st
     = (Some (Apply r yaml opts st).1, (Apply r yaml opts st).2).
Proof.
  split; [reflexivity|]. split.
  - apply Reconcile_nil_no_delete.
  - apply firstApply_spec_Reconcile.
Qed.

(** ** More on the delete path and on the order of requests *)

(** X8: [Delete] on a text that does not decode returns the decoder's error,
    wrapped once by [GetObjects] and once more by [Delete] itself, without
    sending a request, logging, or touching the cluster. *)
Theorem Delete_decode_error r yaml opts st e :
  (ReadObjects yaml).2 = Some e ->
  Delete r yaml opts st
  = (Some (fmt_Errorf "error decoding yaml to unstructured"
             (fmt_Errorf "error decoding yaml to unstructured" e)), st).
Proof.
  intros He. unfold_Delete. unfold GetObjects.
  destruct (ReadObjects yaml) as [raw err]. cbn in He. by subst err.
Qed.

(** X9: [Delete] on a text that decodes sends one [DeleteAll] for all decoded
    objects, as they are (no defaulting, no staging) and even when there are
    none, with foreground propagation.  When that request fails its error is
    returned wrapped and nothing else is sent; otherwise [Delete] returns nil
    after the termination wait, which is sent unless skip-wait is set and
    runs up to the caller's timeout or the default. *)
Theorem Delete_requests r yaml opts st objs res w :
  ReadObjects yaml = (objs, None) ->
  ssa.DeleteAll (mgr r) objs foreground
    (world (log r "beginning delete of resources" st).2) = (res, w) ->
  match res with
  | Some e =>
      Delete r yaml opts st
      = (Some (fmt_Errorf "error during deletion" e),
         {| world := w; calls := calls st ++ [DeleteAllCall objs foreground] |})
  | None =>
      exists w',
        Delete r yaml opts st
        = (None,
           {| world := w';
              calls := calls st
                       ++ DeleteAllCall objs foreground
                          :: (if DeleteSkipWait opts then []
                              else [WaitForTerminationCall objs
                                      {| ssa.Interval := 2 * Second;
                                         ssa.Timeout := default DefaultTimeout
                                                          (DeleteWaitTimeout opts) |}]) |})
        /\ (DeleteSkipWait opts = true -> w' = w)
  end.
Proof.
  intros Hdec Hdel. unfold_Delete. unfold GetObjects. rewrite Hdec.
  unfold delete, foreground, log, mret, M_ret in *. run_unfold.
  destruct opts as [[t|] [|]], (logFunc r) as [f|]; cbn in *; rewrite Hdel;
    destruct res as [e|]; cbn; try done;
    repeat run_step; rewrite <- ?app_assoc; cbn;
    (eexists; split; [reflexivity | done]).
Qed.

(** X10: The requests of a run of [Reconcile] on a text that decodes are an
    initial part of: apply stage one, wait for stage one, apply stage two,
    wait for stage two (unless skip-wait), delete what fell out of the
    declaration and wait for its termination (when a previous inventory
    leaves something to remove).  At least the first is sent, none is sent
    twice, and a run that returns nil has sent them all. *)
Theorem Reconcile_requests_in_order r yaml opts prev st s1 s2 :
  getResourceStages yaml = (s1, s2, None) ->
  let run := Reconcile r yaml opts prev st in
  exists tr,
    calls run.2 = calls st ++ tr
    /\ tr <> []
    /\ tr `prefix_of` plannedCalls s1 s2 opts prev
    /\ (run.1.2 = None -> tr = plannedCalls s1 s2 opts prev).
Proof.
  intros Hstages run. subst run.
  destruct (Reconcile_outcomes r yaml opts prev st s1 s2 Hstages)
    as (tr & res & w & Hrun & Hcases).
  rewrite Hrun. cbn. exists tr. split; [done|].
  unfold_plan_in Hcases. unfold_plan.
  destruct Hcases as
    [(-> & e & ->) | [(-> & ->) | [(-> & e & ->) | [(Hskip & -> & ->)
     | [(p & e & -> & Hne & -> & ->) | (-> & ->)]]]]]; cbn.
  - split; [done|]. split; [|done]. by eexists.
  - split; [done|]. split; [|done]. by eexists.
  - split; [done|]. split; [|done]. by eexists.
  - rewrite Hskip. cbn. split; [done|]. split; [|done]. by eexists.
  - split; [done|]. split; [|done].
    destruct (ItemsToRemove p _) as [|x l]; [done|].
    destruct (SkipWait opts); cbn; by eexists.
  - split; [done|]. split; done.
Qed.

(** X11: Pruning only ever deletes what the previous inventory held and the text
    no longer declares: a [DeleteAll] sent by [Reconcile] carries exactly the
    non-empty difference of the previous inventory against the new one, with
    foreground propagation, and each of its objects refers to an item of the
    previous inventory whose identity no declared object has. *)
Theorem prune_deletes_only_undeclared r yaml opts p st s1 s2 :
  getResourceStages yaml = (s1, s2, None) ->
  let inventory := {| Items := map toInventoryItem s1 ++ map toInventoryItem s2 |} in
  exists tr,
    calls (Reconcile r yaml opts (Some p) st).2 = calls st ++ tr
    /\ (length (List.filter isDeleteAll tr) <= 1)%nat
    /\ forall objs o, DeleteAllCall objs o ∈ tr ->
         o = foreground
         /\ objs = ItemsToRemove p inventory
         /\ objs <> []
         /\ forall u, u ∈ objs ->
              exists i, i ∈ Items p /\ u = removalRef i
                        /\ forall d, d ∈ s1 ++ s2 ->
                             ID ObjMetadata_String (toInventoryItem d)
                             <> ID ObjMetadata_String i.
Proof.
  intros Hstages inventory.
  assert (Hsafe : forall u, u ∈ ItemsToRemove p inventory ->
            exists i, i ∈ Items p /\ u = removalRef i
                      /\ forall d, d ∈ s1 ++ s2 ->
                           ID ObjMetadata_String (toInventoryItem d)
                           <> ID ObjMetadata_String i).
  { intros u Hu. rewrite ItemsToRemove_filter in Hu.
    apply (proj1 (list_elem_of_fmap removalRef _ _)) in Hu as (i & -> & Hi).
    apply list_elem_of_filter in Hi as [Hout Hi].
    exists i. split; [done|]. split; [done|]. intros d Hd Heq. apply Hout.
    rewrite <- Heq. subst inventory. cbn [Items]. rewrite <- map_app.
    apply (list_elem_of_fmap_2 (ID ObjMetadata_String)).
    by apply (list_elem_of_fmap_2 toInventoryItem). }
  destruct (Reconcile_outcomes r yaml opts (Some p) st s1 s2 Hstages)
    as (tr & res & w & Hrun & Hcases).
  rewrite Hrun. cbn. exists tr. split; [done|].
  unfold_plan_in Hcases. fold inventory in Hcases.
  destruct Hcases as
    [(-> & e & ->) | [(-> & ->) | [(-> & e & ->) | [(Hskip & -> & ->)
     | [(p' & e & Hp & Hne & -> & ->) | (-> & ->)]]]]]; cbn.
  1-4: split; [lia|]; intros objs o Hin; set_unfold; intuition (simplify_eq; done).
  - injection Hp as <-. unfold foreground.
    destruct (SkipWait opts); cbn; (split; [lia|]);
      intros objs o Hin; set_unfold; destruct_or!; simplify_eq;
      repeat split; auto.
  - unfold foreground.
    destruct (ItemsToRemove p inventory) as [|x l] eqn:Hrem;
      destruct (SkipWait opts); cbn; (split; [lia|]);
      intros objs o Hin; set_unfold; destruct_or!; simplify_eq;
      repeat split; auto; intros u Hu; apply Hsafe; by apply elem_of_cons.
Qed.

(** X12: A timeout the caller gives is used as it is, without validation: in
    [Reconcile] by the stage-two wait and by the termination wait of pruning,
    in [Delete] by the termination wait.  The stage-one wait does not look
    at it. *)
Theorem caller_timeout_used r yaml opts prev st t :
  WaitTimeout opts = Some t ->
  (exists tr,
     calls (Reconcile r yaml opts prev st).2 = calls st ++ tr
     /\ (forall i objs o, tr !! i = Some (WaitCall objs o) -> i <> 1%nat ->
           o = {| ssa.Interval := 2 * Second; ssa.Timeout := t |})
     /\ (forall objs o, tr !! 1%nat = Some (WaitCall objs o) ->
           o = {| ssa.Interval := 2 * Second; ssa.Timeout := 30 * Second |})
     /\ (forall objs o, WaitForTerminationCall objs o ∈ tr ->
           o = {| ssa.Interval := 2 * Second; ssa.Timeout := t |}))
  /\ (forall dopts, DeleteWaitTimeout dopts = Some t ->
        exists tr,
          calls (Delete r yaml dopts st).2 = calls st ++ tr
          /\ forall objs o, WaitForTerminationCall objs o ∈ tr ->
               o = {| ssa.Interval := 2 * Second; ssa.Timeout := t |}).
Proof.
  intros Ht. split.
  - destruct (getResourceStages yaml) as [[s1 s2] [e|]] eqn:Hstages.
    + rewrite (Reconcile_decode_error _ _ _ _ _ e) by (by rewrite Hstages).
      exists []. cbn. rewrite app_nil_r. split; [done|]. split; [done|].
      split; [done|]. intros objs o H. by apply elem_of_nil in H.
    + destruct (Reconcile_outcomes r yaml opts prev st s1 s2 Hstages)
        as (tr & res & w & Hrun & Hcases).
      rewrite Hrun. cbn. exists tr. split; [done|].
      unfold_plan_in Hcases. rewrite Ht in Hcases. cbn in Hcases.
      destruct Hcases as
        [(-> & e & ->) | [(-> & ->) | [(-> & e & ->) | [(Hskip & -> & ->)
         | [(p & e & -> & Hne & -> & ->) | (-> & ->)]]]]]; cbn.
      all: destruct (SkipWait opts); cbn.
      all: try (destruct prev as [p|]; [destruct (ItemsToRemove p _)|]; cbn).
      all: split;
        [ intros i objs o Hi Hne';
          repeat (destruct i as [|i]; simplify_eq/=; try done)
        | split;
          [ intros objs o Hi; simplify_eq/=; done
          | intros objs o Hin; set_unfold; intuition (simplify_eq; done) ] ].
  - intros dopts Hd. unfold_Delete.
    destruct (GetObjects ReadObjects yaml) as [objs [e|]]; cbn.
    + exists []. rewrite app_nil_r. split; [done|]. intros ?? H. by apply elem_of_nil in H.
    + destruct (delete_calls r objs dopts st) as (tr & Hcalls & Hpre).
      exists tr. split; [done|]. intros objs' o Hin.
      eapply elem_of_prefix in Hin; [|exact Hpre].
      unfold deleteCalls in Hin. rewrite Hd in Hin. cbn in Hin.
      destruct (DeleteSkipWait dopts); set_unfold; intuition (simplify_eq; done).
Qed.

(** X13: The errors of [Reconcile].  A decoding error is returned wrapped, with
    the state untouched.  A failed apply is returned wrapped under the name of
    its stage.  A failed wait is reported by one fixed message that does not
    carry the manager's error.  A pruning error is always a failed
    [DeleteAll], wrapped twice, and needs a previous inventory. *)
Theorem Reconcile_error_forms r yaml opts prev st err :
  (Reconcile r yaml opts prev st).1.2 = Some err ->
  (exists e, err = fmt_Errorf "error getting resource stages" e
             /\ (getResourceStages yaml).2 = Some e
             /\ (Reconcile r yaml opts prev st).2 = st)
  \/ (exists e, err = fmt_Errorf "error applying stage one resources" e)
  \/ err = errors_New "timed out waiting for objects to reconcile"
  \/ (exists e, err = fmt_Errorf "error applying stage two resources" e)
  \/ (exists e, err = fmt_Errorf "error pruning items"
                        (fmt_Errorf "error during deletion" e)
                /\ prev <> None).
Proof.
  destruct (getResourceStages yaml) as [[s1 s2] [e|]] eqn:Hstages.
  - rewrite (Reconcile_decode_error _ _ _ _ _ e) by (by rewrite Hstages).
    cbn. intros [= <-]. left. eauto.
  - destruct (Reconcile_outcomes r yaml opts prev st s1 s2 Hstages)
      as (tr & res & w & Hrun & Hcases).
    rewrite Hrun. cbn.
    destruct Hcases as
      [(_ & e & ->) | [(_ & ->) | [(_ & e & ->) | [(_ & _ & ->)
       | [(p & e & -> & _ & _ & ->) | (_ & ->)]]]]]; cbn; intros [= <-].
    + right; left. eauto.
    + right; right; left. done.
    + right; right; right; left. eauto.
    + right; right; left. done.
    + right; right; right; right. eauto.
Qed.

(** X14: Logging has no part in the control flow: with a log function that leaves
    the cluster alone, [Reconcile] and [Delete] send the same requests and
    return the same results as with no log function at all. *)
Theorem logging_is_observational r (f : string -> World -> World) yaml st :
  (forall m w, f m w = w) ->
  (forall opts prev,
     Reconcile (SetLogFunc r (Some f)) yaml opts prev st
     = Reconcile (SetLogFunc r None) yaml opts prev st)
  /\ (forall dopts,
        Delete (SetLogFunc r (Some f)) yaml dopts st
        = Delete (SetLogFunc r None) yaml dopts st).
Proof.
  intros Hf.
  assert (Hdelete : forall items dopts st0,
            delete (SetLogFunc r (Some f)) items dopts st0
            = delete (SetLogFunc r None) items dopts st0).
  { intros items dopts [w0 c0]. unfold delete. run_unfold. rewrite !Hf.
    destruct dopts as [[t|] [|]]; cbn; repeat first [rewrite Hf | run_step]; done. }
  split.
  - intros opts prev. unfold_Reconcile.
    destruct (getResourceStages yaml) as [[s1 s2] [e|]]; [done|].
    unfold_removeItems. unfold delete. destruct st as [w0 c0]. run_unfold.
    destruct opts as [[t|] [|]], prev as [p|]; cbn;
      try (destruct (ItemsToRemove p _) as [|x toRemove]; cbn);
      repeat first [rewrite Hf | run_step]; done.
  - intros dopts. unfold_Delete.
    destruct (GetObjects ReadObjects yaml) as [objs [e|]]; [done|]. apply Hdelete.
Qed.

(** X16: The barrier between the stages: when the resource manager fails the
    stage-one apply, [Reconcile] stops there; when it fails the stage-one
    wait, [Reconcile] stops after the wait.  Either way it returns an error
    and the empty inventory, and stage two is never applied. *)
Theorem stage_two_needs_stage_one r yaml opts prev st s1 s2 :
  getResourceStages yaml = (s1, s2, None) ->
  ((forall w, (ssa.ApplyAll (mgr r) s1 ssa.ApplyOptions_zero w).1 <> None) ->
   exists e w,
     Reconcile r yaml opts prev st
     = ((Inventory_zero, Some (fmt_Errorf "error applying stage one resources" e)),
        {| world := w; calls := calls st ++ [ApplyAllCall s1 ssa.ApplyOptions_zero] |}))
  /\ ((forall w, (ssa.Wait (mgr r) s1 stageOneWait w).1 <> None) ->
      exists tr res w,
        Reconcile r yaml opts prev st = (res, {| world := w; calls := calls st ++ tr |})
        /\ res.1 = Inventory_zero /\ res.2 <> None
        /\ (tr = [ApplyAllCall s1 ssa.ApplyOptions_zero]
            \/ tr = [ApplyAllCall s1 ssa.ApplyOptions_zero; WaitCall s1 stageOneWait])).
Proof.
  intros Hstages. split; intros Hfail.
  - unfold_Reconcile. rewrite Hstages. run_unfold.
    destruct (logFunc r) as [f|]; cbn; run_step;
      try (rewrite <- ?app_assoc; cbn; by eauto);
      match goal with
      | H : ssa.ApplyAll _ _ _ ?w0 = (None, _) |- _ =>
          exfalso; apply (Hfail w0); by rewrite H
      end.
  - unfold_Reconcile. rewrite Hstages. unfold stageOneWait in *. run_unfold.
    destruct (logFunc r) as [f|]; cbn; run_step;
      try (do 3 eexists; split; [reflexivity|]; cbn; by auto);
      run_step;
      try (rewrite <- ?app_assoc; cbn; do 3 eexists; split; [reflexivity|]; cbn; by auto);
      match goal with
      | H : ssa.Wait _ _ _ ?w0 = (None, _) |- _ =>
          exfalso; apply (Hfail w0); by rewrite H
      end.
Qed.

End ReconcilerFacts.

(** ** The delete path *)

(** C1 (the code departs from it): [delete] returns an error only when the
    [DeleteAll] request fails, and then no termination wait was sent.  The
    result of the termination wait is dropped: on a cluster where the wait
    fails, [Delete] with waiting enabled sends the wait and still returns
    nil. *)
Theorem delete_drops_termination_error :
  (forall (World : Type) (r : Reconciler World) (items : list Unstructured)
          (opts : DeleteOpts) (st : State World),
      (delete r items opts st).1 = None
      \/ exists e,
           (delete r items opts st).1 = Some (fmt_Errorf "error during deletion" e)
           /\ calls (delete r items opts st).2 = calls st ++ [DeleteAllCall items foreground])
  /\ ssa.WaitForTermination (mgr Sample.stuck) [Sample.configOne]
       {| ssa.Interval := 2 * Second; ssa.Timeout := DefaultTimeout |} tt
     = (Some (errors_New "injected failure"), tt)
  /\ Delete Sample.ReadObjects Sample.stuck "1"
       {| DeleteWaitTimeout := None; DeleteSkipWait := false |} Sample.start
     = (None,
        {| world := tt;
           calls := [DeleteAllCall [Sample.configOne] foreground;
                     WaitForTerminationCall [Sample.configOne]
                       {| ssa.Interval := 2 * Second; ssa.Timeout := DefaultTimeout |}] |}).
Proof.
  split; [|split; reflexivity].
  intros World r items opts st.
  destruct (delete_outcomes r items opts st) as [(e & w & ->) | (w & ->)]; cbn; eauto.
Qed.

(** ** Examples on the fixture *)

(** C6 does not hold as stated: on a text declaring the same config map
    twice the run succeeds and the inventory holds its identity twice. *)
Lemma inventory_duplicates_counterexample :
  let run := Sample.reconcile Sample.healthy "11" Sample.noOpts None in
  Sample.ReadObjects "11" = ([Sample.configOne; Sample.configOne], None)
  /\ run.1.2 = None
  /\ ~ NoDup (map ObjMetadata (Items run.1.1)).
Proof.
  cbn zeta. split; [reflexivity|]. split; [reflexivity|].
  intros Hnodup. vm_compute in Hnodup.
  apply NoDup_cons in Hnodup as [Hnotin _]. apply Hnotin. left.
Qed.


Lemma stages_partition_in_order_witness :
  let objs := [Sample.configOne; Sample.nsObject; Sample.configTwo] in
  let run := Sample.reconcile Sample.healthy "1N2" Sample.noOpts None in
  spec_decode Sample.ReadObjects Sample.normalize "1N2" = inr objs
  /\ stageLoop Sample.IsClusterDefinition [] [] objs
     = ([Sample.nsObject], [Sample.configOne; Sample.configTwo])
  /\ List.filter isApplyAll (calls run.2)
     = [ApplyAllCall [Sample.nsObject] ssa.ApplyOptions_zero;
        ApplyAllCall [Sample.configOne; Sample.configTwo] ssa.ApplyOptions_zero].
Proof.
  cbn zeta. split; [reflexivity|].
  destruct (stages_partition_in_order (World := unit) Sample.idString Sample.ReadObjects
              Sample.normalize Sample.IsClusterDefinition
              [Sample.configOne; Sample.nsObject; Sample.configTwo])
    as (Hstages & _ & _ & _ & _ & Hrun).
  split; [exact Hstages|].
  destruct (Hrun Sample.healthy "1N2" Sample.noOpts None Sample.start eq_refl)
    as (tr & Hcalls & _ & Hok).
  unfold Sample.reconcile. rewrite Hcalls. cbn [Sample.start calls app].
  apply Hok. reflexivity.
Defined.

Lemma inventory_follows_declaration_witness :
  let objs := [Sample.configOne; Sample.nsObject; Sample.configTwo] in
  let run := Sample.reconcile Sample.healthy "1N2" Sample.noOpts None in
  spec_decode Sample.ReadObjects Sample.normalize "1N2" = inr objs
  /\ run.1.2 = None
  /\ Items run.1.1
     = map toInventoryItem [Sample.nsObject; Sample.configOne; Sample.configTwo]
  /\ NoDup (map ObjMetadata (Items run.1.1)).
Proof.
  cbn zeta. split; [reflexivity|]. split; [reflexivity|].
  destruct (inventory_follows_declaration Sample.idString Sample.ReadObjects Sample.normalize
              Sample.IsClusterDefinition Sample.healthy "1N2" Sample.noOpts None Sample.start
              [Sample.configOne; Sample.nsObject; Sample.configTwo] eq_refl eq_refl)
    as (Hitems & _ & Hnodup).
  split; [exact Hitems|].
  apply Hnodup. vm_compute.
  repeat (apply NoDup_cons_2;
          [ intros H; repeat (apply elem_of_cons in H as [H|H]; [discriminate H|]);
            by apply elem_of_nil in H | ]).
  apply NoDup_nil_2.
Defined.

Lemma prune_only_when_needed_witness :
  let inv0 := Sample.inventoryOf [Sample.configOne] in
  let run := Sample.reconcile Sample.healthy "12" Sample.noOpts (Some inv0) in
  spec_decode Sample.ReadObjects Sample.normalize "1" = inr [Sample.configOne]
  /\ spec_decode Sample.ReadObjects Sample.normalize "12"
     = inr [Sample.configOne; Sample.configTwo]
  /\ (Sample.reconcile Sample.healthy "1" Sample.noOpts None).1 = (inv0, None)
  /\ run = Sample.reconcile Sample.healthy "12" Sample.noOpts None
  /\ (run.1.2 = None ->
      Items run.1.1 = map toInventoryItem [Sample.configOne; Sample.configTwo]).
Proof.
  cbn zeta. split; [reflexivity|]. split; [reflexivity|]. split; [reflexivity|].
  destruct (prune_only_when_needed Sample.idString Sample.ReadObjects Sample.normalize
              Sample.IsClusterDefinition Sample.healthy "12" Sample.noOpts Sample.start)
    as (_ & _ & _ & Hgrow).
  apply (Hgrow "1" Sample.noOpts None Sample.start (Sample.inventoryOf [Sample.configOne])
           [Sample.configOne] [Sample.configOne; Sample.configTwo]);
    [reflexivity | reflexivity | reflexivity |].
  intros o Ho. apply list_elem_of_singleton in Ho. subst o. left.
Defined.

Lemma wait_timeouts_witness :
  let run := Sample.reconcile Sample.healthy "N2" Sample.noOpts (Some Sample.twoMaps) in
  let byDefault := {| ssa.Interval := 2 * Second; ssa.Timeout := DefaultTimeout |} in
  WaitTimeout Sample.noOpts = None
  /\ WaitForTerminationCall [removalRef (toInventoryItem Sample.configOne)] byDefault
     ∈ calls run.2
  /\ (forall objs o, WaitForTerminationCall objs o ∈ calls run.2 -> o = byDefault)
  /\ (forall i objs o, calls run.2 !! i = Some (WaitCall objs o) -> i <> 1%nat ->
        o = byDefault).
Proof.
  cbn zeta. split; [reflexivity|].
  split; [vm_compute; do 5 right; left|].
  destruct (wait_timeouts Sample.idString Sample.ReadObjects Sample.normalize
              Sample.IsClusterDefinition Sample.healthy "N2" Sample.noOpts
              (Some Sample.twoMaps) Sample.start)
    as (_ & _ & (tr & Hcalls & _ & Hdefault) & _).
  destruct (Hdefault eq_refl) as [Hwait Hterm].
  unfold Sample.reconcile. rewrite Hcalls. cbn [Sample.start calls app].
  split; [exact Hterm | exact Hwait].
Defined.

Lemma failure_returns_empty_inventory_witness :
  (Sample.ReadObjects "1?").2 = Some (errors_New "unknown document")
  /\ exists e,
       getResourceStages Sample.ReadObjects Sample.normalize Sample.IsClusterDefinition "1?"
       = ([], [], Some e)
       /\ Sample.reconcile Sample.healthy "1?" Sample.noOpts (Some Sample.twoMaps)
          = ((Inventory_zero, Some (fmt_Errorf "error getting resource stages" e)),
             Sample.start).
Proof.
  split; [reflexivity|].
  destruct (failure_returns_empty_inventory Sample.idString Sample.ReadObjects
              Sample.normalize Sample.IsClusterDefinition Sample.healthy "1?" Sample.noOpts
              (Some Sample.twoMaps) Sample.start)
    as (Hdecode & _).
  exact (Hdecode (errors_New "unknown document") eq_refl).
Defined.

(** Shrinking the declaration, as in the package's reconcile test: the config
    map that fell out is deleted in one request, its termination awaited, and
    the new inventory has the namespace and the remaining config map. *)
Example Reconcile_prune_on_shrink :
  let first := Sample.reconcile Sample.healthy "N12" Sample.noOpts None in
  let second := Sample.reconcile Sample.healthy "N2" Sample.noOpts (Some first.1.1) in
  first.1.2 = None
  /\ length (Items first.1.1) = 3%nat
  /\ second.1 = (Sample.inventoryOf [Sample.nsObject; Sample.configTwo], None)
  /\ List.filter (fun c => isDeleteAll c || isWaitForTermination c) (calls second.2)
     = deleteCalls [removalRef (toInventoryItem Sample.configOne)] false DefaultTimeout.
Proof. vm_compute. repeat split. Qed.

(** Growing it: no delete request at all. *)
Example Reconcile_prune_on_grow :
  let first := Sample.reconcile Sample.healthy "1" Sample.noOpts None in
  let second := Sample.reconcile Sample.healthy "12" Sample.noOpts (Some first.1.1) in
  second.1 = (Sample.inventoryOf [Sample.configOne; Sample.configTwo], None)
  /\ List.filter isDeleteAll (calls second.2) = [].
Proof. vm_compute. repeat split. Qed.

(** * Further properties of the package *)

(** ** The string set: [Add], [Remove], [Contains] *)

Lemma data_Remove (items : list string) (s : set) :
  data (Remove items s) = data s ∖ list_to_set items.
Proof.
  revert s. induction items as [|i items IH]; intros s.
  - cbn. set_solver.
  - unfold Remove in *. cbn [foldl]. rewrite IH. cbn. set_solver.
Qed.

Lemma set_eq (s t : set) : data s = data t -> s = t.
Proof. destruct s, t. cbn. by intros ->. Qed.

(** X1: [Add] keeps what the set held and makes every added item a member,
    nothing else. *)
Theorem Contains_Add (items : list string) (s : set) (x : string) :
  Contains (Add items s) x = Contains s x || bool_decide (x ∈ items).
Proof.
  unfold Contains. rewrite data_Add.
  destruct (decide (x ∈ data s)) as [Hs|Hs], (decide (x ∈ items)) as [Hi|Hi];
    rewrite ?(bool_decide_eq_true_2 (x ∈ data s)), ?(bool_decide_eq_false_2 (x ∈ data s)),
      ?(bool_decide_eq_true_2 (x ∈ items)), ?(bool_decide_eq_false_2 (x ∈ items)) by done;
    cbn; [apply bool_decide_eq_true_2 .. | apply bool_decide_eq_false_2]; set_solver.
Qed.

(** X2: [Remove] drops exactly the listed items; removing an item the set does
    not hold is not an error and changes nothing. *)
Theorem Contains_Remove (items : list string) (s : set) (x : string) :
  Contains (Remove items s) x = Contains s x && negb (bool_decide (x ∈ items)).
Proof.
  unfold Contains. rewrite data_Remove.
  destruct (decide (x ∈ data s)) as [Hs|Hs], (decide (x ∈ items)) as [Hi|Hi];
    rewrite ?(bool_decide_eq_true_2 (x ∈ data s)), ?(bool_decide_eq_false_2 (x ∈ data s)),
      ?(bool_decide_eq_true_2 (x ∈ items)), ?(bool_decide_eq_false_2 (x ∈ items)) by done;
    cbn; [apply bool_decide_eq_false_2 | apply bool_decide_eq_true_2
          | apply bool_decide_eq_false_2 ..]; set_solver.
Qed.

(** X3: Adding items the set does not hold and removing them again gives the
    set back; without the precondition the items that were members are
    lost. *)
Theorem Remove_Add_fresh (items : list string) (s : set) :
  (forall x, x ∈ items -> Contains s x = false) ->
  Remove items (Add items s) = s.
Proof.
  intros Hfresh. apply set_eq. rewrite data_Remove, data_Add.
  assert (Hdisj : forall x, x ∈ items -> x ∉ data s).
  { intros x Hx Hin. specialize (Hfresh x Hx). unfold Contains in Hfresh.
    by rewrite bool_decide_eq_true_2 in Hfresh. }
  set_solver.
Qed.

(** X4: The set built by [Add] depends on which items are given, not on their
    order or on repetitions; in particular adding the same items twice is
    adding them once. *)
Theorem Add_order_irrelevant (items items' : list string) (s : set) :
  (forall x, x ∈ items <-> x ∈ items') ->
  Add items s = Add items' s /\ Add items (Add items' s) = Add items s.
Proof.
  intros Hsame. split; apply set_eq; rewrite !data_Add; set_solver.
Qed.

Lemma Remove_Add_fresh_witness :
  (forall x, x ∈ ["a"; "b"] -> Contains (newSet ["c"]) x = false)
  /\ Remove ["a"; "b"] (Add ["a"; "b"] (newSet ["c"])) = newSet ["c"]
  /\ Contains (Remove ["c"] (Add ["c"] (newSet ["c"]))) "c" = false.
Proof.
  assert (Hfresh : forall x, x ∈ ["a"; "b"] -> Contains (newSet ["c"]) x = false).
  { intros x Hx. rewrite Contains_newSet. apply bool_decide_eq_false_2.
    rewrite !elem_of_cons in Hx. rewrite list_elem_of_singleton.
    destruct Hx as [-> | [-> | Hx]]; [discriminate | discriminate |].
    by apply elem_of_nil in Hx. }
  split; [exact Hfresh|]. split.
  - exact (Remove_Add_fresh ["a"; "b"] (newSet ["c"]) Hfresh).
  - vm_compute. reflexivity.
Defined.

Lemma Add_order_irrelevant_witness :
  (forall x, x ∈ ["a"; "b"; "a"] <-> x ∈ ["b"; "a"])
  /\ Add ["a"; "b"; "a"] (newSet []) = Add ["b"; "a"] (newSet [])
  /\ Add ["a"; "b"; "a"] (Add ["b"; "a"] (newSet [])) = Add ["a"; "b"; "a"] (newSet []).
Proof.
  assert (Hsame : forall x, x ∈ ["a"; "b"; "a"] <-> x ∈ ["b"; "a"]).
  { intros x. rewrite !elem_of_cons. pose proof (not_elem_of_nil x). tauto. }
  split; [exact Hsame|].
  exact (Add_order_irrelevant ["a"; "b"; "a"] ["b"; "a"] (newSet []) Hsame).
Defined.

(** ** More on the inventory difference *)

Section InventoryMore.
Variable ObjMetadata_String : object.ObjMetadata -> string.

Local Abbreviation ID := (ID ObjMetadata_String).
Local Abbreviation ItemsToRemove := (ItemsToRemove ObjMetadata_String).

Lemma filter_weaken {A} (P Q : A -> Prop) `{forall x, Decision (P x)}
    `{forall x, Decision (Q x)} (l : list A) :
  (forall x, P x -> Q x) -> filter P l `sublist_of` filter Q l.
Proof.
  intros HPQ. induction l as [|x l IH]; [done|].
  rewrite !filter_cons.
  destruct (decide (P x)) as [HP|HP].
  - rewrite decide_True by auto. by constructor.
  - destruct (decide (Q x)); [by constructor | done].
Qed.

(** X5: The difference of an inventory against itself is empty, and stays empty
    when the new inventory holds further items before or after: nothing that
    is still declared is ever listed for removal. *)
Theorem ItemsToRemove_superset (A : Inventory) (before after : list InventoryItem) :
  ItemsToRemove A A = []
  /\ ItemsToRemove A {| Items := before ++ Items A ++ after |} = [].
Proof.
  split; apply ItemsToRemove_nil_iff; intros a Ha; cbn [Items].
  - by apply (list_elem_of_fmap_2 ID).
  - apply (list_elem_of_fmap_2 ID). rewrite !elem_of_app. auto.
Qed.

(** X6: The old inventory is scanned item by item: the difference of a
    concatenation is the concatenation of the differences, an empty old
    inventory gives an empty difference, and the difference never has more
    entries than the old inventory has items. *)
Theorem ItemsToRemove_app (A1 A2 : list InventoryItem) (B : Inventory) :
  ItemsToRemove {| Items := A1 ++ A2 |} B
  = ItemsToRemove {| Items := A1 |} B ++ ItemsToRemove {| Items := A2 |} B
  /\ ItemsToRemove Inventory_zero B = []
  /\ (length (ItemsToRemove {| Items := A1 |} B) <= length A1)%nat.
Proof.
  rewrite !ItemsToRemove_filter. cbn [Items]. split; [|split].
  - by rewrite filter_app, map_app.
  - done.
  - rewrite length_map. apply length_filter.
Qed.

(** X7: Only the identities of the new inventory matter, and more of them can
    only shrink the difference: when every identity of [B] is also one of
    [B'], what is to be removed against [B'] is a sublist of what is to be
    removed against [B].  Two new inventories with the same identities (in
    any order, with any versions) give the same difference. *)
Theorem ItemsToRemove_antitone (A B B' : Inventory) :
  (forall s, s ∈ map ID (Items B) -> s ∈ map ID (Items B')) ->
  ItemsToRemove A B' `sublist_of` ItemsToRemove A B
  /\ ((forall s, s ∈ map ID (Items B') -> s ∈ map ID (Items B)) ->
      ItemsToRemove A B' = ItemsToRemove A B).
Proof.
  intros Hsub. rewrite !ItemsToRemove_filter. split.
  - apply (fmap_sublist removalRef), filter_weaken. intros a Hout Hin. apply Hout, Hsub, Hin.
  - intros Hsup. f_equal. apply list_filter_iff. intros a. split; intros Hout Hin.
    + apply Hout, Hsub, Hin.
    + apply Hout, Hsup, Hin.
Qed.
End InventoryMore.

Lemma ItemsToRemove_antitone_witness :
  let grown := Sample.inventoryOf [Sample.configOne_v2; Sample.configTwo] in
  (forall s, s ∈ map (ID Sample.idString) (Items Sample.oneMap) ->
             s ∈ map (ID Sample.idString) (Items grown))
  /\ ItemsToRemove Sample.idString Sample.twoMaps grown
       `sublist_of` ItemsToRemove Sample.idString Sample.twoMaps Sample.oneMap
  /\ ItemsToRemove Sample.idString Sample.twoMaps grown = [].
Proof.
  cbn zeta.
  assert (Hsub : forall s,
             s ∈ map (ID Sample.idString) (Items Sample.oneMap) ->
             s ∈ map (ID Sample.idString)
                   (Items (Sample.inventoryOf [Sample.configOne_v2; Sample.configTwo]))).
  { intros s. cbn. rewrite !elem_of_cons. tauto. }
  split; [exact Hsub|]. split.
  - exact (proj1 (ItemsToRemove_antitone Sample.idString Sample.twoMaps Sample.oneMap
                    (Sample.inventoryOf [Sample.configOne_v2; Sample.configTwo]) Hsub)).
  - vm_compute. reflexivity.
Defined.

(** ** What the returned inventory depends on *)

Section AcrossRuns.
Context {World World' : Type}.
Variable ObjMetadata_String : object.ObjMetadata -> string.
Variable ReadObjects : string -> list Unstructured * option error.
Variable normalize_UnstructuredList : list Unstructured -> list Unstructured * option error.
Variable IsClusterDefinition : Unstructured -> bool.

Local Abbreviation ReconcileOn W :=
  (@Reconcile W ObjMetadata_String ReadObjects normalize_UnstructuredList IsClusterDefinition).

(** X15: The inventory a successful [Reconcile] returns is decided by the
    declaration text alone: two runs on the same text that both return nil
    return the same inventory, whatever the options, the previous inventory,
    the log function, the cluster and the answers of the resource manager. *)
Theorem inventory_depends_on_text_only (r : Reconciler World) (r' : Reconciler World')
    (yaml : string) (opts opts' : ApplyOpts) (prev prev' : option Inventory)
    (st : State World) (st' : State World') :
  (ReconcileOn World r yaml opts prev st).1.2 = None ->
  (ReconcileOn World' r' yaml opts' prev' st').1.2 = None ->
  (ReconcileOn World r yaml opts prev st).1.1
  = (ReconcileOn World' r' yaml opts' prev' st').1.1.
Proof.
  intros Hok Hok'.
  destruct (getResourceStages ReadObjects normalize_UnstructuredList IsClusterDefinition yaml)
    as [[s1 s2] [e|]] eqn:Hstages.
  - rewrite (Reconcile_decode_error _ _ _ _ _ _ _ _ _ e) in Hok by (by rewrite Hstages).
    discriminate Hok.
  - rewrite (Reconcile_success _ _ _ _ _ _ _ _ _ _ _ Hstages Hok).
    by rewrite (Reconcile_success _ _ _ _ _ _ _ _ _ _ _ Hstages Hok').
Qed.
End AcrossRuns.

Lemma inventory_depends_on_text_only_witness :
  let run := Sample.reconcile Sample.healthy "N2" Sample.noOpts None in
  let run' := Sample.reconcile (SetLogFunc Sample.stuck (Some Sample.quietLog)) "N2"
                Sample.skipOpts (Some Sample.twoMaps) in
  run.1.2 = None /\ run'.1.2 = None /\ run.2 <> run'.2 /\ run.1.1 = run'.1.1.
Proof.
  cbn zeta. split; [reflexivity|]. split; [vm_compute; reflexivity|].
  split; [vm_compute; discriminate|].
  exact (inventory_depends_on_text_only Sample.idString Sample.ReadObjects Sample.normalize
           Sample.IsClusterDefinition Sample.healthy
           (SetLogFunc Sample.stuck (Some Sample.quietLog)) "N2"
           Sample.noOpts Sample.skipOpts None (Some Sample.twoMaps)
           Sample.start Sample.start eq_refl eq_refl).
Defined.

(** ** Witnesses on the fixture *)

Lemma Delete_decode_error_witness :
  (Sample.ReadObjects "2?").2 = Some (errors_New "unknown document")
  /\ Delete Sample.ReadObjects Sample.healthy "2?"
       {| DeleteWaitTimeout := None; DeleteSkipWait := false |} Sample.start
     = (Some (fmt_Errorf "error decoding yaml to unstructured"
                (fmt_Errorf "error decoding yaml to unstructured"
                   (errors_New "unknown document"))), Sample.start).
Proof.
  split; [reflexivity|].
  exact (Delete_decode_error Sample.ReadObjects Sample.healthy "2?"
           {| DeleteWaitTimeout := None; DeleteSkipWait := false |} Sample.start
           (errors_New "unknown document") eq_refl).
Defined.

Lemma Delete_requests_witness :
  let opts := {| DeleteWaitTimeout := Some (90 * Second); DeleteSkipWait := true |} in
  Sample.ReadObjects "" = ([], None)
  /\ ssa.DeleteAll (mgr Sample.healthy) [] foreground
       (world (log Sample.healthy "beginning delete of resources" Sample.start).2)
     = (None, tt)
  /\ exists w',
       Delete Sample.ReadObjects Sample.healthy "" opts Sample.start
       = (None, {| world := w'; calls := [DeleteAllCall [] foreground] |})
       /\ (DeleteSkipWait opts = true -> w' = tt).
Proof.
  cbn zeta. split; [reflexivity|]. split; [reflexivity|].
  exact (Delete_requests Sample.ReadObjects Sample.healthy ""
           {| DeleteWaitTimeout := Some (90 * Second); DeleteSkipWait := true |}
           Sample.start [] None tt eq_refl eq_refl).
Defined.

Lemma Reconcile_requests_in_order_witness :
  let stageOne := [Sample.nsObject] in
  let stageTwo := [Sample.configTwo] in
  let run := Sample.reconcile (Sample.reconciler isDeleteAll) "N2" Sample.noOpts
               (Some Sample.twoMaps) in
  getResourceStages Sample.ReadObjects Sample.normalize Sample.IsClusterDefinition "N2"
  = (stageOne, stageTwo, None)
  /\ run.1.2 <> None
  /\ exists tr,
       calls run.2 = calls Sample.start ++ tr
       /\ tr <> []
       /\ tr `prefix_of` plannedCalls Sample.idString stageOne stageTwo Sample.noOpts
                           (Some Sample.twoMaps)
       /\ (run.1.2 = None ->
           tr = plannedCalls Sample.idString stageOne stageTwo Sample.noOpts
                  (Some Sample.twoMaps)).
Proof.
  cbn zeta. split; [reflexivity|]. split; [vm_compute; discriminate|].
  exact (Reconcile_requests_in_order Sample.idString Sample.ReadObjects Sample.normalize
           Sample.IsClusterDefinition (Sample.reconciler isDeleteAll) "N2" Sample.noOpts
           (Some Sample.twoMaps) Sample.start [Sample.nsObject] [Sample.configTwo] eq_refl).
Defined.

Lemma prune_deletes_only_undeclared_witness :
  let run := Sample.reconcile Sample.healthy "N2" Sample.noOpts (Some Sample.twoMaps) in
  getResourceStages Sample.ReadObjects Sample.normalize Sample.IsClusterDefinition "N2"
  = ([Sample.nsObject], [Sample.configTwo], None)
  /\ DeleteAllCall [removalRef (toInventoryItem Sample.configOne)] foreground ∈ calls run.2
  /\ forall objs o, DeleteAllCall objs o ∈ calls run.2 ->
       o = foreground
       /\ forall u, u ∈ objs ->
            exists i, i ∈ Items Sample.twoMaps /\ u = removalRef i
                      /\ forall d, d ∈ [Sample.nsObject] ++ [Sample.configTwo] ->
                           ID Sample.idString (toInventoryItem d) <> ID Sample.idString i.
Proof.
  cbn zeta. split; [reflexivity|]. split; [vm_compute; do 4 right; left|].
  destruct (prune_deletes_only_undeclared Sample.idString Sample.ReadObjects Sample.normalize
              Sample.IsClusterDefinition Sample.healthy "N2" Sample.noOpts Sample.twoMaps
              Sample.start [Sample.nsObject] [Sample.configTwo] eq_refl)
    as (tr & Hcalls & _ & Hdel).
  unfold Sample.reconcile. rewrite Hcalls. cbn [Sample.start calls app].
  intros objs o Hin. destruct (Hdel objs o Hin) as (Ho & _ & _ & Hsafe). by split.
Defined.

Lemma caller_timeout_used_witness :
  let run := Sample.reconcile Sample.healthy "N2" Sample.timedOpts (Some Sample.twoMaps) in
  let asGiven := {| ssa.Interval := 2 * Second; ssa.Timeout := 90 * Second |} in
  WaitTimeout Sample.timedOpts = Some (90 * Second)
  /\ calls run.2 !! 3%nat = Some (WaitCall [Sample.configTwo] asGiven)
  /\ (forall i objs o, calls run.2 !! i = Some (WaitCall objs o) -> i <> 1%nat -> o = asGiven)
  /\ (forall objs o, WaitForTerminationCall objs o ∈ calls run.2 -> o = asGiven).
Proof.
  cbn zeta. split; [reflexivity|]. split; [reflexivity|].
  destruct (caller_timeout_used Sample.idString Sample.ReadObjects Sample.normalize
              Sample.IsClusterDefinition Sample.healthy "N2" Sample.timedOpts
              (Some Sample.twoMaps) Sample.start (90 * Second) eq_refl)
    as ((tr & Hcalls & Hwait & _ & Hterm) & _).
  unfold Sample.reconcile. rewrite Hcalls. cbn [Sample.start calls app].
  split; [exact Hwait | exact Hterm].
Defined.

Lemma Reconcile_error_forms_witness :
  let run := Sample.reconcile (Sample.reconciler isWait) "N2" Sample.noOpts None in
  let err := errors_New "timed out waiting for objects to reconcile" in
  run.1.2 = Some err
  /\ ((exists e, err = fmt_Errorf "error getting resource stages" e
                 /\ (getResourceStages Sample.ReadObjects Sample.normalize
                       Sample.IsClusterDefinition "N2").2 = Some e
                 /\ run.2 = Sample.start)
      \/ (exists e, err = fmt_Errorf "error applying stage one resources" e)
      \/ err = errors_New "timed out waiting for objects to reconcile"
      \/ (exists e, err = fmt_Errorf "error applying stage two resources" e)
      \/ (exists e, err = fmt_Errorf "error pruning items"
                            (fmt_Errorf "error during deletion" e)
                    /\ @None Inventory <> None)).
Proof.
  cbn zeta. split; [reflexivity|].
  exact (Reconcile_error_forms Sample.idString Sample.ReadObjects Sample.normalize
           Sample.IsClusterDefinition (Sample.reconciler isWait) "N2" Sample.noOpts None
           Sample.start (errors_New "timed out waiting for objects to reconcile") eq_refl).
Defined.

Lemma logging_is_observational_witness :
  (forall m w, Sample.quietLog m w = w)
  /\ Sample.reconcile (SetLogFunc Sample.healthy (Some Sample.quietLog)) "N2" Sample.noOpts
       (Some Sample.twoMaps)
     = Sample.reconcile (SetLogFunc Sample.healthy None) "N2" Sample.noOpts
         (Some Sample.twoMaps).
Proof.
  split; [reflexivity|].
  destruct (logging_is_observational Sample.idString Sample.ReadObjects Sample.normalize
              Sample.IsClusterDefinition Sample.healthy Sample.quietLog "N2" Sample.start
              (fun _ _ => eq_refl))
    as (Hrec & _).
  exact (Hrec Sample.noOpts (Some Sample.twoMaps)).
Defined.

Lemma stage_two_needs_stage_one_witness :
  let r := Sample.reconciler isWait in
  let stageOne := [Sample.nsObject] in
  getResourceStages Sample.ReadObjects Sample.normalize Sample.IsClusterDefinition "N2"
  = (stageOne, [Sample.configTwo], None)
  /\ (forall w, (ssa.Wait (mgr r) stageOne stageOneWait w).1 <> None)
  /\ exists tr res w,
       Sample.reconcile r "N2" Sample.noOpts None
       = (res, {| world := w; calls := calls Sample.start ++ tr |})
       /\ res.1 = Inventory_zero /\ res.2 <> None
       /\ (tr = [ApplyAllCall stageOne ssa.ApplyOptions_zero]
           \/ tr = [ApplyAllCall stageOne ssa.ApplyOptions_zero;
                    WaitCall stageOne stageOneWait]).
Proof.
  cbn zeta.
  assert (Hfail : forall w,
             (ssa.Wait (mgr (Sample.reconciler isWait)) [Sample.nsObject] stageOneWait w).1
             <> None) by (intros w; cbn; discriminate).
  split; [reflexivity|]. split; [exact Hfail|].
  destruct (stage_two_needs_stage_one Sample.idString Sample.ReadObjects Sample.normalize
              Sample.IsClusterDefinition (Sample.reconciler isWait) "N2" Sample.noOpts None
              Sample.start [Sample.nsObject] [Sample.configTwo] eq_refl)
    as (_ & Hwait).
  exact (Hwait Hfail).
Defined.
